(** * App.py: webcam recorder with S3 upload

    A shallow embedding of the Streamlit script [App.py].  Streamlit runs
    the whole script from top to bottom on every interaction; the only
    state that survives between two runs is [st.session_state].  The
    embedding therefore has three layers:

    - Python values and the session dictionary (a [gmap] from key names
      to values, keys may be absent);
    - a small state-and-signal monad [M]: a computation threads the
      session dictionary and a log of the calls made to the outside
      (Streamlit widgets, PyAV, boto3), and ends either with a value or
      with a signal (a raised exception, [st.rerun()], [st.stop()]);
    - the script itself, one definition per source block, with the
      source line numbers in the comments.

    Everything the script reads from the outside (secrets, the clock,
    the uuid generator, the button that was clicked, the answers of PyAV
    and boto3) is a field of [Env]; theorems quantify over it. *)

From Stdlib Require Import ZArith List String Ascii Bool Lia.
From stdpp Require Import base strings gmap list pretty.

Local Open Scope Z_scope.

(** ** Python values *)

(** [av.VideoFrame]: the script only passes frames around; it reads no
    field of them. *)
Record VideoFrame := {
  frame_width : Z;
  frame_height : Z;
  frame_pts : Z
}.

(** An encoded packet, as [stream.encode] returns them. *)
Definition Packet := list Byte.byte.

(** The values the script stores in [st.session_state].  Clock readings
    ([time.time()], a float in the source) are kept as a whole number of
    microseconds. *)
Inductive Value :=
| VNone
| VBool (b : bool)
| VNum (x : Z)
| VStr (s : string)
| VBytes (b : list Byte.byte)
| VFrames (fs : list VideoFrame).

(** Python truthiness, [bool(v)]. *)
Definition truthy (v : Value) : bool :=
  match v with
  | VNone => false
  | VBool b => b
  | VNum x => negb (x =? 0)
  | VStr s => negb (String.eqb s "")
  | VBytes b => match b with [] => false | _ => true end
  | VFrames fs => match fs with [] => false | _ => true end
  end.

(** [v == s] for a string literal [s]. *)
Definition eq_str (v : Value) (s : string) : bool :=
  match v with
  | VStr t => String.eqb t s
  | _ => false
  end.

(** The exceptions the script can meet; all are subclasses of
    [Exception]. *)
Inductive PyExc :=
| NameError (name : string)
| AttributeError (attr : string)
| KeyError (key : string)
| TypeError (msg : string)
| NoCredentialsError
| ClientError (msg : string)
| OtherError (msg : string).

(** [str(e)]. *)
Definition exc_str (e : PyExc) : string :=
  match e with
  | NameError n => "name '" +:+ n +:+ "' is not defined"
  | AttributeError a => a
  | KeyError k => "'" +:+ k +:+ "'"
  | TypeError m => m
  | NoCredentialsError => "Unable to locate credentials"
  | ClientError m => m
  | OtherError m => m
  end.

(** ** Calls to the outside, in the order they are made *)

Inductive Effect :=
| UiTitle (text : string)
| UiMarkdown (text : string)
| UiError (text : string)
| UiSuccess (text : string)
| UiInfo (text : string)
| UiMetric (label : string) (value : Value)
| UiButton (label : string)
| UiColumns
| UiProgress (pct : Z)
| UiBalloons
| WebrtcStreamer (key : string)
| AvOpen (format : string)
| AvAddStream (codec : string) (rate : Z)
| AvReformat (frame : VideoFrame) (width height : Z)
| AvEncode (frame : VideoFrame)
| AvMux (packets : list Packet)
| AvClose
| AvOutputBytes
| Boto3Client (region : string)
| S3PutObject (bucket key : string) (body : list Byte.byte) (content_type : string).

(** ** The state-and-signal monad *)

Record World := {
  session_state : gmap string Value;
  calls : list Effect
}.

(** How a computation can end without a value: an exception, or one of
    Streamlit's two control signals. *)
Inductive Signal :=
| Raise (e : PyExc)
| Rerun
| Halt.

Inductive Res (A : Type) :=
| Ret (a : A)
| Sig (s : Signal).
Arguments Ret {A} a.
Arguments Sig {A} s.

Definition M (A : Type) : Type := World → Res A * World.

#[global] Instance M_ret : MRet M := λ A a w, (Ret a, w).
#[global] Instance M_bind : MBind M := λ A B f m w,
  match m w with
  | (Ret a, w') => f a w'
  | (Sig s, w') => (Sig s, w')
  end.

Definition raise {A} (e : PyExc) : M A := λ w, (Sig (Raise e), w).
Definition st_rerun {A} : M A := λ w, (Sig Rerun, w).
Definition st_stop {A} : M A := λ w, (Sig Halt, w).

(** [try: body except ...: ...].  [handler e] is the clause that takes
    the exception [e], if there is one; an exception no clause takes
    goes on to the caller.  The control signals of Streamlit are not
    exceptions of class [Exception] and pass through. *)
Definition try_except {A} (body : M A) (handler : PyExc → option (M A)) : M A := λ w,
  match body w with
  | (Sig (Raise e), w') =>
      match handler e with
      | Some h => h w'
      | None => (Sig (Raise e), w')
      end
  | r => r
  end.

Definition emit (e : Effect) : M unit := λ w,
  (Ret (), {| session_state := session_state w; calls := calls w ++ [e] |}).

(** A call to a library: it is logged, then it answers or raises. *)
Definition call {A} (e : Effect) (answer : PyExc + A) : M A :=
  emit e ;;
  match answer with
  | inl exc => raise exc
  | inr a => mret a
  end.

(** *** [st.session_state] *)

(** [key in st.session_state] *)
Definition has_key (key : string) : M bool := λ w,
  (Ret (bool_decide (is_Some (session_state w !! key))), w).

(** [st.session_state.key] *)
Definition get_attr (key : string) : M Value := λ w,
  match session_state w !! key with
  | Some v => (Ret v, w)
  | None => (Sig (Raise (AttributeError key)), w)
  end.

(** [st.session_state.key = v] *)
Definition set_attr (key : string) (v : Value) : M unit := λ w,
  (Ret (), {| session_state := <[key := v]> (session_state w); calls := calls w |}).

(** [del st.session_state.key] *)
Definition del_attr (key : string) : M unit := λ w,
  match session_state w !! key with
  | Some _ => (Ret (), {| session_state := delete key (session_state w); calls := calls w |})
  | None => (Sig (Raise (AttributeError key)), w)
  end.

(** [del st.session_state[key]] *)
Definition del_item (key : string) : M unit := λ w,
  match session_state w !! key with
  | Some _ => (Ret (), {| session_state := delete key (session_state w); calls := calls w |})
  | None => (Sig (Raise (KeyError key)), w)
  end.

(** ** What a run reads from the outside *)

Inductive Button := BtnStart | BtnStop | BtnNew.

#[global] Instance Button_eq_dec : EqDecision Button.
Proof. solve_decision. Defined.

(** [time.localtime()], the fields [time.strftime] prints. *)
Record struct_time := {
  tm_year : Z;
  tm_mon : Z;
  tm_mday : Z;
  tm_hour : Z;
  tm_min : Z;
  tm_sec : Z
}.

(** PyAV, as far as the stop handler uses it.  The encoder is stateful:
    its answer may depend on the frames it was fed before.  What the
    container holds in the end may depend on every packet muxed. *)
Record AvLib := {
  av_open : PyExc + unit;
  av_add_stream : PyExc + unit;
  av_reformat : VideoFrame → PyExc + VideoFrame;
  av_encode : list VideoFrame → VideoFrame → PyExc + list Packet;
  av_mux : list Packet → PyExc + unit;
  av_close : PyExc + unit;
  av_output_bytes : list Packet → PyExc + list Byte.byte
}.

Record Env := {
  secrets : gmap string string;   (* st.secrets *)
  playing : bool;                 (* webrtc_ctx.state.playing *)
  clicked : option Button;        (* the button whose click caused this run *)
  time_metric : Z;                (* time.time() on line 104 *)
  time_start : Z;                 (* time.time() on line 113 *)
  localtime : struct_time;        (* the clock read by time.strftime, line 54 *)
  uuid4 : Z;                      (* uuid.uuid4().int *)
  boto3_client : PyExc + unit;    (* boto3.client(...), line 35 *)
  put_object : string → string → list Byte.byte → PyExc + unit;
  av : AvLib
}.

(** ** Formatting *)

(** [f"{n:02d}"] and [strftime]'s two-digit fields. *)
Definition pad2 (n : Z) : string :=
  if (0 <=? n) && (n <? 10) then "0" +:+ pretty n else pretty n.

(** [time.strftime("%Y%m%d-%H%M%S")] *)
Definition strftime (tm : struct_time) : string :=
  pretty (tm_year tm) +:+ pad2 (tm_mon tm) +:+ pad2 (tm_mday tm) +:+ "-" +:+
  pad2 (tm_hour tm) +:+ pad2 (tm_min tm) +:+ pad2 (tm_sec tm).

Definition hex_digit (d : Z) : ascii :=
  if d <? 10 then ascii_of_nat (Z.to_nat (48 + d)) else ascii_of_nat (Z.to_nat (87 + d)).

(** [uuid.hex]: the 128-bit value as 32 lower-case hexadecimal digits,
    most significant first. *)
(** The [k]-th hexadecimal digit of [u], counted from the least
    significant one. *)
Definition nibble (u k : Z) : Z := Z.land (Z.shiftr u (4 * k)) 15.

Definition uuid_hex (u : Z) : list ascii :=
  map (λ i, hex_digit (nibble u (31 - i))) (seqZ 0 32).

(** [uuid.uuid4().hex[:8]] *)
Definition uuid_prefix (u : Z) : string :=
  string_of_list_ascii (take 8 (uuid_hex u)).

(** [f"{len(video_bytes) / (1024*1024):.1f}"].  The quotient by a power
    of two is exact in binary floating point, and the format rounds it
    to one decimal, ties to even. *)
Definition format_mb (len : Z) : string :=
  let q := (10 * len) / 1048576 in
  let r := (10 * len) mod 1048576 in
  let tenths :=
    if 2 * r <? 1048576 then q
    else if 1048576 <? 2 * r then q + 1
    else if Z.even q then q else q + 1 in
  pretty (tenths / 10) +:+ "." +:+ pretty (tenths mod 10).

(** The operand of [time.time() - start_time], in microseconds. *)
Definition as_number (v : Value) : option Z :=
  match v with
  | VNum x => Some x
  | VBool b => Some (if b then 1000000 else 0)
  | _ => None
  end.

(** [f"{int(elapsed//60):02d}:{int(elapsed%60):02d}"] *)
Definition format_elapsed (elapsed : Z) : string :=
  pad2 (elapsed / 60000000) +:+ ":" +:+ pad2 ((elapsed mod 60000000) / 1000000).

(** ** The script *)

(** Lines 1-7: the names the [import] statements bind.  The top-level
    statements before line 124 add the names they assign. *)
Definition imported_names : list string :=
  ["st"; "boto3"; "av"; "time"; "uuid"; "NoCredentialsError"; "ClientError";
   "webrtc_streamer"; "RTCConfiguration"; "WebRtcMode"].

Definition assigned_names : list string :=
  ["AWS_ACCESS_KEY_ID"; "AWS_SECRET_ACCESS_KEY"; "AWS_REGION"; "S3_BUCKET";
   "get_s3_client"; "video_frame_callback"; "upload_to_s3"; "rtc_config";
   "webrtc_ctx"; "col1"; "col2"; "elapsed"].

Definition module_globals : list string := imported_names ++ assigned_names.

(** Evaluating a global name that is not a builtin. *)
Definition name_lookup (globals : list string) (name : string) : M unit :=
  if bool_decide (name ∈ globals) then mret () else raise (NameError name).

(** Lines 10-17. *)
Record Config := {
  AWS_ACCESS_KEY_ID : string;
  AWS_SECRET_ACCESS_KEY : string;
  AWS_REGION : string;
  S3_BUCKET : string
}.

(** [st.secrets[key]] *)
Definition secrets_item (env : Env) (key : string) : M string :=
  match secrets env !! key with
  | Some v => mret v
  | None => raise (KeyError key)
  end.

Definition is_KeyError (e : PyExc) : bool :=
  match e with KeyError _ => true | _ => false end.

Definition missing_secrets_message : string :=
  "❌ **Missing AWS secrets**. Add to Streamlit Cloud settings.".

Definition load_secrets (env : Env) : M Config :=
  try_except
    (a ← secrets_item env "AWS_ACCESS_KEY_ID";
     s ← secrets_item env "AWS_SECRET_ACCESS_KEY";
     let r := default "us-east-1" (secrets env !! "AWS_REGION") in
     b ← secrets_item env "S3_BUCKET";
     mret {| AWS_ACCESS_KEY_ID := a; AWS_SECRET_ACCESS_KEY := s;
             AWS_REGION := r; S3_BUCKET := b |})
    (λ e, if is_KeyError e
          then Some (emit (UiError missing_secrets_message) ;; st_stop)
          else None).

(** Lines 23-30: [if key not in st.session_state: st.session_state.key = v]. *)
Definition init_key (key : string) (v : Value) : M unit :=
  c ← has_key key;
  if (c : bool) then mret () else set_attr key v.

Definition init_session_state : M unit :=
  init_key "recording" (VBool false) ;;
  init_key "recorded_video" VNone ;;
  init_key "status" (VStr "Ready") ;;
  init_key "start_time" VNone.

(** Lines 33-40; the client is a cached resource, [boto3_client] is what
    the call answers. *)
Definition get_s3_client (env : Env) (cfg : Config) : M unit :=
  call (Boto3Client (AWS_REGION cfg)) (boto3_client env).

(** [lst.append(x)] on what a session key holds: only a list has the
    method.  The list object is mutated in place, so the key sees the
    longer list. *)
Definition list_append (key : string) (frame : VideoFrame) : M unit :=
  v ← get_attr key;
  match v with
  | VFrames fs => set_attr key (VFrames (fs ++ [frame]))
  | _ => raise (AttributeError "append")
  end.

(** Lines 43-49. *)
Definition video_frame_callback (frame : VideoFrame) : M VideoFrame :=
  r ← get_attr "recording";
  (if truthy r then
     c ← has_key "frames";
     (if (c : bool) then mret () else set_attr "frames" (VFrames [])) ;;
     list_append "frames" frame
   else mret ()) ;;
  mret frame.

(** Line 55. *)
Definition file_key (tm : struct_time) (u : Z) : string :=
  "recordings/webcam-" +:+ strftime tm +:+ "-" +:+ uuid_prefix u +:+ ".mkv".

(** Line 65. *)
Definition s3_url (cfg : Config) (key : string) : string :=
  "https://" +:+ S3_BUCKET cfg +:+ ".s3." +:+ AWS_REGION cfg +:+ ".amazonaws.com/" +:+ key.

Definition uploaded_status (video_bytes : list Byte.byte) : string :=
  "✅ Uploaded! (" +:+ format_mb (Z.of_nat (length video_bytes)) +:+ "MB)".

Definition credentials_message : string :=
  "❌ **AWS credentials invalid**. Check Streamlit secrets.".

Definition s3_error_message (cfg : Config) (e : PyExc) : string :=
  "❌ **S3 Error**: " +:+ exc_str e +:+ ". Verify bucket `" +:+ S3_BUCKET cfg +:+
  "` exists + IAM permissions.".

Definition upload_failed_message (e : PyExc) : string :=
  "❌ **Upload failed**: " +:+ exc_str e.

(** Lines 72-77: the three [except] clauses, tried in order; the last
    one takes every [Exception]. *)
Definition upload_handler (cfg : Config) (e : PyExc) : option (M unit) :=
  Some match e with
       | NoCredentialsError => emit (UiError credentials_message)
       | ClientError _ => emit (UiError (s3_error_message cfg e))
       | _ => emit (UiError (upload_failed_message e))
       end.

(** Lines 51-77.  [video_bytes] is what [container.output_bytes] gave. *)
Definition upload_to_s3 (env : Env) (cfg : Config) (video_bytes : list Byte.byte) : M unit :=
  try_except
    (get_s3_client env cfg ;;
     let key := file_key (localtime env) (uuid4 env) in
     emit (UiProgress 0) ;;
     call (S3PutObject (S3_BUCKET cfg) key video_bytes "video/x-matroska")
          (put_object env (S3_BUCKET cfg) key video_bytes) ;;
     let url := s3_url cfg key in
     emit (UiProgress 100) ;;
     set_attr "status" (VStr (uploaded_status video_bytes)) ;;
     emit (UiSuccess ("**Video saved**: [" +:+ key +:+ "](" +:+ url +:+ ")")) ;;
     emit UiBalloons)
    (upload_handler cfg).

(** [st.button(label)]: the widget is drawn, and the call answers [True]
    in the run its click caused. *)
Definition st_button (env : Env) (b : Button) (label : string) : M bool :=
  emit (UiButton label) ;;
  mret (bool_decide (clicked env = Some b)).

(** [for x in xs: body x] *)
Fixpoint for_each {A} (xs : list A) (body : A → M unit) : M unit :=
  match xs with
  | [] => mret ()
  | x :: rest => body x ;; for_each rest body
  end.

(** Lines 102-107. *)
Definition status_metric (env : Env) : M unit :=
  s ← get_attr "status";
  if eq_str s "Recording" then
    t ← get_attr "start_time";
    match as_number t with
    | Some t0 => emit (UiMetric "⏱️" (VStr (format_elapsed (time_metric env - t0))))
    | None => raise (TypeError "unsupported operand type(s) for -")
    end
  else
    v ← get_attr "status";
    emit (UiMetric "Status" v).

(** Lines 112-116. *)
Definition start_recording (env : Env) : M unit :=
  set_attr "recording" (VBool true) ;;
  set_attr "start_time" (VNum (time_start env)) ;;
  set_attr "status" (VStr "Recording") ;;
  set_attr "frames" (VFrames []) ;;
  st_rerun.

(** Lines 130-134.  [fed] are the frames the encoder has seen, [muxed]
    the packets written to the container so far. *)
Fixpoint encode_frames (lib : AvLib) (fed : list VideoFrame) (muxed : list Packet)
    (frames : list VideoFrame) : M (list Packet) :=
  match frames with
  | [] => mret muxed
  | frame :: rest =>
      frame_converted ← call (AvReformat frame 1280 720) (av_reformat lib frame);
      packet ← call (AvEncode frame_converted) (av_encode lib fed frame_converted);
      match packet with
      | [] => mret ()
      | _ => call (AvMux packet) (av_mux lib packet)
      end ;;
      encode_frames lib (fed ++ [frame_converted]) (muxed ++ packet) rest
  end.

(** The [for] statement of line 130 on whatever the key holds: a list of
    frames is walked; the items of a string or of a byte string have no
    [reformat]; the other values cannot be iterated. *)
Definition encode_session_frames (lib : AvLib) (v : Value) : M (list Packet) :=
  match v with
  | VFrames fs => encode_frames lib [] [] fs
  | VStr s => if String.eqb s "" then mret [] else raise (AttributeError "reformat")
  | VBytes b => match b with [] => mret [] | _ => raise (AttributeError "reformat") end
  | _ => raise (TypeError "object is not iterable")
  end.

(** Lines 124-140, the body of the [if] of line 123. *)
Definition flush (globals : list string) (env : Env) (cfg : Config) : M unit :=
  name_lookup globals "io" ;;
  call (AvOpen "matroska") (av_open (av env)) ;;
  call (AvAddStream "libx264" 30) (av_add_stream (av env)) ;;
  v ← get_attr "frames";
  muxed ← encode_session_frames (av env) v;
  call AvClose (av_close (av env)) ;;
  video_bytes ← call AvOutputBytes (av_output_bytes (av env) muxed);
  set_attr "recorded_video" (VBytes video_bytes) ;;
  upload_to_s3 env cfg video_bytes ;;
  del_attr "frames".

(** Lines 119-142. *)
Definition stop_and_upload (globals : list string) (env : Env) (cfg : Config) : M unit :=
  set_attr "recording" (VBool false) ;;
  set_attr "status" (VStr "Processing...") ;;
  c ← has_key "frames";
  nonempty ← (if (c : bool) then v ← get_attr "frames"; mret (truthy v) else mret false);
  (if (nonempty : bool) then flush globals env cfg else mret ()) ;;
  st_rerun.

(** Lines 109-142. *)
Definition controls (globals : list string) (env : Env) (cfg : Config) : M unit :=
  can_start ← (if playing env
               then r ← get_attr "recording"; mret (negb (truthy r))
               else mret false);
  if (can_start : bool) then
    b ← st_button env BtnStart "🔴 **Start Recording**";
    if (b : bool) then start_recording env else mret ()
  else
    r ← get_attr "recording";
    if truthy r then
      b ← st_button env BtnStop "⏹️ **Stop & Upload**";
      if (b : bool) then stop_and_upload globals env cfg else mret ()
    else mret ().

Definition session_keys : list string :=
  ["recording"; "recorded_video"; "status"; "start_time"; "frames"].

(** Lines 145-149. *)
Definition new_recording (env : Env) : M unit :=
  b ← st_button env BtnNew "📹 **New Recording**";
  if (b : bool) then
    for_each session_keys (λ key,
      c ← has_key key;
      if (c : bool) then del_item key else mret ()) ;;
    st_rerun
  else mret ().

Definition setup_info : string :=
  "
**ℹ️ Setup**:
- Add AWS secrets in Streamlit Cloud settings
- IAM policy: `s3:PutObject` for bucket `your-bucket-name`
- Works on all browsers (HTTPS required)
".

(** One run of the script, top to bottom, in a module whose global
    names are [globals]. *)
Definition run_script (globals : list string) (env : Env) : M unit :=
  cfg ← load_secrets env;
  emit (UiTitle "🎥 Webcam Recorder → S3") ;;
  emit (UiMarkdown "**Record video → Auto-upload to S3**") ;;
  init_session_state ;;
  emit (WebrtcStreamer "recorder") ;;
  emit UiColumns ;;
  status_metric env ;;
  controls globals env cfg ;;
  new_recording env ;;
  emit (UiMarkdown "---") ;;
  emit (UiInfo setup_info).

(** The script as it is: its globals are those of lines 1-7 and of its
    own assignments. *)
Definition App (env : Env) : M unit := run_script module_globals env.

(** ** Sessions *)

(** A world with the given session dictionary and an empty log. *)
Definition fresh (s : gmap string Value) : World :=
  {| session_state := s; calls := [] |}.

Definition with_click (c : option Button) (env : Env) : Env :=
  {| secrets := secrets env; playing := playing env; clicked := c;
     time_metric := time_metric env; time_start := time_start env;
     localtime := localtime env; uuid4 := uuid4 env;
     boto3_client := boto3_client env; put_object := put_object env;
     av := av env |}.

(** A user action: the run the click causes and, when that run asks for
    it with [st.rerun()], the run that follows at once, with no click. *)
Definition interact (globals : list string) (env env' : Env) (w : World) : Res unit * World :=
  match run_script globals env w with
  | (Sig Rerun, w') => run_script globals (with_click None env') w'
  | r => r
  end.

(** What happens to a session: the script runs (for a click, a rerun, or
    a new connection), or the transport delivers a frame. *)
Inductive Event :=
| ScriptRun (env : Env)
| FrameArrives (frame : VideoFrame).

Definition after (ev : Event) (s : gmap string Value) : gmap string Value :=
  match ev with
  | ScriptRun env => session_state (App env (fresh s)).2
  | FrameArrives frame => session_state (video_frame_callback frame (fresh s)).2
  end.

(** The session dictionary after a sequence of events, from a new
    (empty) session. *)
Definition replay (events : list Event) : gmap string Value :=
  foldl (λ s ev, after ev s) ∅ events.

(** ** Reading the recorder off the session dictionary *)

(** The frame buffer: the list under [frames], empty when the key is
    absent. *)
Definition frame_buffer (s : gmap string Value) : list VideoFrame :=
  match s !! "frames" with
  | Some (VFrames fs) => fs
  | _ => []
  end.

(** The recorder is recording: the flag the callback and the buttons
    test. *)
Definition is_recording (s : gmap string Value) : bool :=
  match s !! "recording" with
  | Some v => truthy v
  | None => false
  end.

(** The state name the script keeps under [status]. *)
Definition status_is (s : gmap string Value) (name : string) : bool :=
  match s !! "status" with
  | Some v => eq_str v name
  | None => false
  end.

(** The test of line 123: the key [frames] is there and holds something
    truthy. *)
Definition frames_nonempty (s : gmap string Value) : bool :=
  match s !! "frames" with
  | Some v => truthy v
  | None => false
  end.

(** ** What the blocks of the script do to the session *)

(** [if key not in st.session_state: st.session_state.key = v] on the
    dictionary. *)
Definition with_default (key : string) (v : Value) (s : gmap string Value) : gmap string Value :=
  match s !! key with
  | Some _ => s
  | None => <[key := v]> s
  end.

(** The session once lines 23-30 have run. *)
Definition initialised (s : gmap string Value) : gmap string Value :=
  with_default "start_time" VNone (with_default "status" (VStr "Ready")
    (with_default "recorded_video" VNone (with_default "recording" (VBool false) s))).

(** The session once lines 112-115 have run. *)
Definition started (t : Z) (s : gmap string Value) : gmap string Value :=
  <["frames" := VFrames []]> (<["status" := VStr "Recording"]>
    (<["start_time" := VNum t]> (<["recording" := VBool true]> s))).

(** The session once lines 119-120 have run. *)
Definition stopped (s : gmap string Value) : gmap string Value :=
  <["status" := VStr "Processing..."]> (<["recording" := VBool false]> s).

(** The session after the loop of lines 146-148. *)
Definition forgotten (s : gmap string Value) : gmap string Value :=
  delete "frames" (delete "start_time" (delete "status"
    (delete "recorded_video" (delete "recording" s)))).

(** All three required secrets are there. *)
Definition configured (env : Env) : bool :=
  bool_decide (is_Some (secrets env !! "AWS_ACCESS_KEY_ID")) &&
  bool_decide (is_Some (secrets env !! "AWS_SECRET_ACCESS_KEY")) &&
  bool_decide (is_Some (secrets env !! "S3_BUCKET")).

(** The message the upload shows for an exception, by the [except]
    clause that takes it. *)
Definition upload_error_message (cfg : Config) (e : PyExc) : string :=
  match e with
  | NoCredentialsError => credentials_message
  | ClientError _ => s3_error_message cfg e
  | _ => upload_failed_message e
  end.

(** The calls of an upload that goes through. *)
Definition upload_calls (env : Env) (cfg : Config) (video_bytes : list Byte.byte) : list Effect :=
  let key := file_key (localtime env) (uuid4 env) in
  [Boto3Client (AWS_REGION cfg); UiProgress 0;
   S3PutObject (S3_BUCKET cfg) key video_bytes "video/x-matroska";
   UiProgress 100;
   UiSuccess ("**Video saved**: [" +:+ key +:+ "](" +:+ s3_url cfg key +:+ ")");
   UiBalloons].

(** ** Invariants of the session *)

(** The key [frames], when it is there, holds a list of frames. *)
Definition frames_typed (s : gmap string Value) : Prop :=
  s !! "frames" = None ∨ ∃ fs, s !! "frames" = Some (VFrames fs).

(** The session is consistent: the recording flag is on exactly when the
    status reads Recording, the key [frames] holds a list when it is
    there, and a recording session has its start time. *)
Definition consistent (s : gmap string Value) : Prop :=
  is_recording s = status_is s "Recording" ∧
  frames_typed s ∧
  (is_recording s = true → ∃ t, s !! "start_time" = Some (VNum t)).

(** Not recording, whatever the status shows. *)
Definition idle (s : gmap string Value) : Prop :=
  is_recording s = false ∧ status_is s "Recording" = false ∧ frames_typed s.

(** How the stop handler leaves the session: the flag off, the status
    Processing... or, after an upload that went through, the uploaded
    note. *)
Definition after_stop (s : gmap string Value) : Prop :=
  s !! "recording" = Some (VBool false) ∧
  (s !! "status" = Some (VStr "Processing...") ∨
   ∃ video_bytes, s !! "status" = Some (VStr (uploaded_status video_bytes))).

(** ** The naming convention of stored objects

    [recordings/webcam-<YYYYMMDD-HHMMSS>-<8 hex chars>.<ext>], as a
    check on a key. *)

Definition is_digit (c : ascii) : bool :=
  let n := nat_of_ascii c in (48 <=? n)%nat && (n <=? 57)%nat.

Definition is_hex_digit (c : ascii) : bool :=
  let n := nat_of_ascii c in is_digit c || ((97 <=? n)%nat && (n <=? 102)%nat).

Definition is_alnum (c : ascii) : bool :=
  let n := nat_of_ascii c in
  is_digit c || ((97 <=? n)%nat && (n <=? 122)%nat) || ((65 <=? n)%nat && (n <=? 90)%nat).

(** [s] without its prefix [p], if it starts with [p]. *)
Fixpoint strip_prefix (p s : string) : option string :=
  match p, s with
  | EmptyString, _ => Some s
  | String a p', String b s' => if Ascii.eqb a b then strip_prefix p' s' else None
  | _, _ => None
  end.

(** [s] without its first [n] characters, if they all pass [ok]. *)
Fixpoint run_of (n : nat) (ok : ascii → bool) (s : string) : option string :=
  match n with
  | O => Some s
  | S n' =>
      match s with
      | String c s' => if ok c then run_of n' ok s' else None
      | EmptyString => None
      end
  end.

Fixpoint all_chars (ok : ascii → bool) (s : string) : bool :=
  match s with
  | EmptyString => true
  | String c s' => ok c && all_chars ok s'
  end.

Definition key_convention (key : string) : bool :=
  match
    s ← strip_prefix "recordings/webcam-" key;
    s ← run_of 8 is_digit s;
    s ← strip_prefix "-" s;
    s ← run_of 6 is_digit s;
    s ← strip_prefix "-" s;
    s ← run_of 8 is_hex_digit s;
    strip_prefix "." s
  with
  | Some ext => negb (String.eqb ext "") && all_chars is_alnum ext
  | None => false
  end.

(** The leading 32 bits of a UUID, its field [time_low]: what the eight
    hexadecimal characters of the key spell. *)
Definition time_low (u : Z) : Z := Z.land (Z.shiftr u 96) (Z.ones 32).

(** A clock reading [time.localtime()] can give, in a year of four
    digits. *)
Definition valid_time (tm : struct_time) : Prop :=
  1000 ≤ tm_year tm ≤ 9999 ∧ 1 ≤ tm_mon tm ≤ 12 ∧ 1 ≤ tm_mday tm ≤ 31 ∧
  0 ≤ tm_hour tm ≤ 23 ∧ 0 ≤ tm_min tm ≤ 59 ∧ 0 ≤ tm_sec tm ≤ 61.

Definition two_digits (s : string) : bool :=
  match s with
  | String a (String b EmptyString) => is_digit a && is_digit b
  | _ => false
  end.

Definition four_digits (s : string) : bool :=
  match s with
  | String a (String b (String c (String d EmptyString))) =>
      is_digit a && is_digit b && is_digit c && is_digit d
  | _ => false
  end.

(** ** Classes of calls *)

(** A call to PyAV. *)
Definition is_av_call (e : Effect) : bool :=
  match e with
  | AvOpen _ | AvAddStream _ _ | AvReformat _ _ _ | AvEncode _ | AvMux _
  | AvClose | AvOutputBytes => true
  | _ => false
  end.

(** A call to the encoder or to the object store. *)
Definition is_encode_or_put (e : Effect) : bool :=
  match e with
  | AvEncode _ | S3PutObject _ _ _ _ => true
  | _ => false
  end.

Definition is_error_message (e : Effect) : bool :=
  match e with
  | UiError _ => true
  | _ => false
  end.

(** ** Sample environments

    A configured deployment whose libraries all answer, and variations
    of it, for the examples. *)

Definition sample_av : AvLib := {|
  av_open := inr ();
  av_add_stream := inr ();
  av_reformat := λ f, inr {| frame_width := 1280; frame_height := 720; frame_pts := frame_pts f |};
  av_encode := λ _ f, inr [[Byte.x00; Byte.x01]];
  av_mux := λ _, inr ();
  av_close := inr ();
  av_output_bytes := λ muxed, inr (concat muxed)
|}.

Definition sample_secrets : gmap string string :=
  <["AWS_ACCESS_KEY_ID" := "AKIAEXAMPLE"]> (<["AWS_SECRET_ACCESS_KEY" := "secret"]>
    (<["S3_BUCKET" := "recordings-bucket"]> ∅)).

Definition sample_time : struct_time :=
  {| tm_year := 2024; tm_mon := 3; tm_mday := 9; tm_hour := 14; tm_min := 5; tm_sec := 0 |}.

Definition sample_env : Env := {|
  secrets := sample_secrets;
  playing := true;
  clicked := None;
  time_metric := 12000000;
  time_start := 10000000;
  localtime := sample_time;
  uuid4 := 0x9f86d081884c7d659a2feaa0c55ad015;
  boto3_client := inr ();
  put_object := λ _ _ _, inr ();
  av := sample_av
|}.

Definition with_playing (b : bool) (env : Env) : Env :=
  {| secrets := secrets env; playing := b; clicked := clicked env;
     time_metric := time_metric env; time_start := time_start env;
     localtime := localtime env; uuid4 := uuid4 env;
     boto3_client := boto3_client env; put_object := put_object env;
     av := av env |}.

Definition click (b : Button) : Env := with_click (Some b) sample_env.

Definition sample_frame (n : Z) : VideoFrame :=
  {| frame_width := 640; frame_height := 480; frame_pts := n |}.

Definition sample_cfg : Config :=
  {| AWS_ACCESS_KEY_ID := "AKIAEXAMPLE"; AWS_SECRET_ACCESS_KEY := "secret";
     AWS_REGION := "us-east-1"; S3_BUCKET := "recordings-bucket" |}.

(** The sample deployment with a bucket that refuses the PUT. *)
Definition denied_env : Env :=
  {| secrets := sample_secrets; playing := true; clicked := None;
     time_metric := 12000000; time_start := 10000000;
     localtime := sample_time; uuid4 := 0x9f86d081884c7d659a2feaa0c55ad015;
     boto3_client := inr ();
     put_object := λ _ _ _, inl (ClientError "AccessDenied");
     av := sample_av |}.

(** PyAV with a [reformat] that refuses the frame whose timestamp is 1. *)
Definition picky_av : AvLib := {|
  av_open := inr ();
  av_add_stream := inr ();
  av_reformat := λ f,
    if frame_pts f =? 1 then inl (OtherError "cannot reformat")
    else inr {| frame_width := 1280; frame_height := 720; frame_pts := frame_pts f |};
  av_encode := λ _ f, inr [[Byte.x00; Byte.x01]];
  av_mux := λ _, inr ();
  av_close := inr ();
  av_output_bytes := λ muxed, inr (concat muxed)
|}.

Definition picky_env : Env :=
  {| secrets := sample_secrets; playing := true; clicked := Some BtnStop;
     time_metric := 12000000; time_start := 10000000;
     localtime := sample_time; uuid4 := 0x9f86d081884c7d659a2feaa0c55ad015;
     boto3_client := inr (); put_object := λ _ _ _, inr ();
     av := picky_av |}.

(** A session that was started and has received no frame, and one that
    has received two. *)
Definition recording_no_frames : gmap string Value :=
  replay [ScriptRun sample_env; ScriptRun (click BtnStart); ScriptRun sample_env].

Definition recording_two_frames : gmap string Value :=
  replay [ScriptRun sample_env; ScriptRun (click BtnStart); ScriptRun sample_env;
          FrameArrives (sample_frame 0); FrameArrives (sample_frame 1)].

(** ** Readings of the call log and of the session, for the properties
    of the single blocks *)

(** A Streamlit widget or message: a call that leaves the process
    alone. *)
Definition is_widget (e : Effect) : bool :=
  match e with
  | UiTitle _ | UiMarkdown _ | UiError _ | UiSuccess _ | UiInfo _ | UiMetric _ _
  | UiButton _ | UiColumns | UiProgress _ | UiBalloons | WebrtcStreamer _ => true
  | _ => false
  end.

Definition is_put (e : Effect) : bool :=
  match e with
  | S3PutObject _ _ _ _ => true
  | _ => false
  end.

Definition is_success_message (e : Effect) : bool :=
  match e with
  | UiSuccess _ => true
  | _ => false
  end.

(** The frames handed to [reformat], the frames handed to the encoder
    and the packet lists handed to [mux], in call order. *)
Definition reformat_args (l : list Effect) : list VideoFrame :=
  omap (λ e, match e with AvReformat f _ _ => Some f | _ => None end) l.

Definition encode_args (l : list Effect) : list VideoFrame :=
  omap (λ e, match e with AvEncode f => Some f | _ => None end) l.

Definition mux_args (l : list Effect) : list (list Packet) :=
  omap (λ e, match e with AvMux p => Some p | _ => None end) l.

(** The world after the transport has delivered [frames], one callback
    each, in order. *)
Definition deliver (frames : list VideoFrame) (w : World) : World :=
  foldl (λ w frame, (video_frame_callback frame w).2) w frames.

(** The values lines 23-30 give to the keys that are missing. *)
Definition init_defaults : gmap string Value :=
  <["recording" := VBool false]> (<["recorded_video" := VNone]>
    (<["status" := VStr "Ready"]> (<["start_time" := VNone]> ∅))).

(** What each key of the recorder may hold: a boolean flag, one of the
    three state names as status, a start time that is None or a clock
    reading, no stored video, a list of frames; no other key. *)
Definition value_shape (key : string) (v : Value) : Prop :=
  if decide (key = "recording") then ∃ b, v = VBool b
  else if decide (key = "status") then
    v = VStr "Ready" ∨ v = VStr "Recording" ∨ v = VStr "Processing..."
  else if decide (key = "start_time") then v = VNone ∨ ∃ t, v = VNum t
  else if decide (key = "recorded_video") then v = VNone
  else if decide (key = "frames") then ∃ fs, v = VFrames fs
  else False.

(** Every key of the session is one of the five and holds a value of
    its shape. *)
Definition well_shaped (s : gmap string Value) : Prop :=
  map_Forall value_shape s.

(** Widgets only. *)
Definition widgets_only (l : list Effect) : Prop := forallb is_widget l = true.

(** [P] holds of the calls made since the log read [before]. *)
Definition calls_since (before : list Effect) (P : list Effect → Prop) : World → Prop :=
  λ w, ∃ l, calls w = before ++ l ∧ P l.

(** Two decimal digits read back as a number. *)
Definition digit_value (c : ascii) : Z := Z.of_nat (nat_of_ascii c) - 48.

Definition unpad2 (s : string) : option Z :=
  match s with
  | String a (String b EmptyString) =>
      if is_digit a && is_digit b then Some (10 * digit_value a + digit_value b) else None
  | _ => None
  end.

(** A timer display [mm:ss] read back as whole seconds. *)
Definition read_timer (s : string) : option Z :=
  match s with
  | String a (String b (String sep (String c (String d EmptyString)))) =>
      if Ascii.eqb sep ":" then
        m ← unpad2 (String a (String b EmptyString));
        sec ← unpad2 (String c (String d EmptyString));
        Some (60 * m + sec)
      else None
  | _ => None
  end.

(** The calls the loop of lines 130-134 makes for one frame that goes
    through: [reformat], [encode], and [mux] when the encoder answered
    with packets. *)
Definition frame_calls (frame converted : VideoFrame) (packets : list Packet) : list Effect :=
  AvReformat frame 1280 720 :: AvEncode converted ::
  match packets with
  | [] => []
  | _ => [AvMux packets]
  end.

Fixpoint loop_calls (frames converted : list VideoFrame) (answers : list (list Packet))
    : list Effect :=
  match frames, converted, answers with
  | frame :: frames, fc :: converted, packets :: answers =>
      frame_calls frame fc packets ++ loop_calls frames converted answers
  | _, _, _ => []
  end.

(** [answers] are the encoder's answers to the frames [converted], fed
    one by one, in order, to an encoder that has seen [fed]. *)
Definition encoder_answers (lib : AvLib) (fed converted : list VideoFrame)
    (answers : list (list Packet)) : Prop :=
  ∀ i fc packets, converted !! i = Some fc → answers !! i = Some packets →
    av_encode lib (fed ++ take i converted) fc = inr packets.

(** What [boto3] answers to an upload as a whole: the exception of the
    call that failed, the client first, or nothing. *)
Definition upload_answer (env : Env) (cfg : Config) (video_bytes : list Byte.byte)
    : PyExc + unit :=
  match boto3_client env with
  | inl e => inl e
  | inr _ =>
      put_object env (S3_BUCKET cfg) (file_key (localtime env) (uuid4 env)) video_bytes
  end.

(** ** A program logic for [M] *)

(** [hoare P m Q]: from a world in [P], [m] ends in [Q], which sees how
    it ended. *)
Definition hoare {A} (P : World → Prop) (m : M A) (Q : Res A → World → Prop) : Prop :=
  ∀ w, P w → Q (m w).1 (m w).2.

(** [keeps I m]: [I] holds after [m], however [m] ends. *)
Definition keeps {A} (I : World → Prop) (m : M A) : Prop :=
  hoare I m (λ _, I).

(** A property of the session dictionary alone. *)
Definition on_session (P : gmap string Value → Prop) : World → Prop :=
  λ w, P (session_state w).

(** [silent s m]: run on the session [s], [m] returns and leaves the
    session as it is. *)
Definition silent {A} (s : gmap string Value) (m : M A) : Prop :=
  hoare (λ w, session_state w = s) m (λ r w, ∃ a, r = Ret a ∧ session_state w = s).

(** [P] survives what the flush can do to the session: store the
    payload, show the uploaded status, drop the frames. *)
Definition flush_closed (P : gmap string Value → Prop) : Prop :=
  (∀ s v, P s → P (<["recorded_video" := v]> s)) ∧
  (∀ s video_bytes, P s → P (<["status" := VStr (uploaded_status video_bytes)]> s)) ∧
  (∀ s, P s → P (delete "frames" s)).

(** ** The monad and its primitives *)

(** Unfolds the monad and its primitives in the goal, leaving the
    lookups in the session dictionary to be decided. *)
Ltac exec :=
  cbv beta iota zeta delta
    [mbind M_bind mret M_ret raise st_rerun st_stop try_except emit call
     has_key get_attr set_attr del_attr del_item name_lookup fresh];
  cbn [session_state calls fst snd].

(** Projections of a world just built, and the log as one list. *)
Ltac tidy :=
  cbn [session_state calls fst snd]; rewrite <- ?app_assoc; cbn [app].

Lemma bind_run {A B} (m : M A) (f : A → M B) (w : World) :
  (m ≫= f) w =
  match m w with
  | (Ret a, w') => f a w'
  | (Sig s, w') => (Sig s, w')
  end.
Proof. reflexivity. Qed.

Lemma ret_run {A} (a : A) (w : World) : (mret a : M A) w = (Ret a, w).
Proof. reflexivity. Qed.

Lemma hoare_bind {A B} (P : World → Prop) (R : A → World → Prop)
    (Q : Res B → World → Prop) (m : M A) (f : A → M B) :
  hoare P m (λ r w, match r with Ret a => R a w | Sig s => Q (Sig s) w end) →
  (∀ a, hoare (R a) (f a) Q) →
  hoare P (m ≫= f) Q.
Proof.
  intros Hm Hf w HP. rewrite bind_run.
  specialize (Hm w HP). destruct (m w) as [[a|s] w']; simpl in *.
  - by apply Hf.
  - done.
Qed.

Lemma keeps_bind {A B} (I : World → Prop) (m : M A) (f : A → M B) :
  keeps I m → (∀ a, keeps I (f a)) → keeps I (m ≫= f).
Proof.
  intros Hm Hf. apply hoare_bind with (R := λ _, I); [|done].
  intros w Hw. specialize (Hm w Hw). by destruct (m w) as [[?|?] ?].
Qed.

Lemma keeps_ret {A} (I : World → Prop) (a : A) : keeps I (mret a : M A).
Proof. by intros w Hw. Qed.

Lemma keeps_raise {A} (I : World → Prop) (e : PyExc) : keeps I (raise (A := A) e).
Proof. by intros w Hw. Qed.

Lemma keeps_stop {A} (I : World → Prop) : keeps I (st_stop (A := A)).
Proof. by intros w Hw. Qed.

Lemma keeps_has_key (I : World → Prop) (key : string) : keeps I (has_key key).
Proof. by intros w Hw. Qed.

Lemma keeps_get_attr (I : World → Prop) (key : string) : keeps I (get_attr key).
Proof. intros w Hw. unfold get_attr. by destruct (session_state w !! key). Qed.

Lemma keeps_name_lookup (I : World → Prop) (globals : list string) (name : string) :
  keeps I (name_lookup globals name).
Proof. intros w Hw. unfold name_lookup. by case_bool_decide. Qed.

Lemma keeps_try_except {A} (I : World → Prop) (body : M A) (handler : PyExc → option (M A)) :
  keeps I body → (∀ e h, handler e = Some h → keeps I h) → keeps I (try_except body handler).
Proof.
  intros Hb Hh w Hw. unfold try_except. specialize (Hb w Hw).
  destruct (body w) as [[a|[e| |]] w']; simpl in *; try done.
  destruct (handler e) as [h|] eqn:He; [|done]. by apply (Hh e h He).
Qed.

(** The log is no part of the session: writing to it keeps every
    property of the session. *)
Lemma keeps_emit (P : gmap string Value → Prop) (e : Effect) : keeps (on_session P) (emit e).
Proof. by intros w Hw. Qed.

Lemma keeps_call {A} (P : gmap string Value → Prop) (e : Effect) (answer : PyExc + A) :
  keeps (on_session P) (call e answer).
Proof.
  apply keeps_bind; [apply keeps_emit|]. intros _.
  destruct answer; [apply keeps_raise | apply keeps_ret].
Qed.

Lemma keeps_set_attr (P : gmap string Value → Prop) (key : string) (v : Value) :
  (∀ s, P s → P (<[key := v]> s)) → keeps (on_session P) (set_attr key v).
Proof. intros H w Hw. by apply H. Qed.

Lemma keeps_del_attr (P : gmap string Value → Prop) (key : string) :
  (∀ s, P s → P (delete key s)) → keeps (on_session P) (del_attr key).
Proof.
  intros H w Hw. unfold del_attr.
  destruct (session_state w !! key); [by apply H | done].
Qed.

Lemma keeps_encode_frames (P : gmap string Value → Prop) (lib : AvLib)
    (frames fed : list VideoFrame) (muxed : list Packet) :
  keeps (on_session P) (encode_frames lib fed muxed frames).
Proof.
  revert fed muxed. induction frames as [|frame rest IH]; intros fed muxed.
  - apply keeps_ret.
  - cbn [encode_frames].
    apply keeps_bind; [apply keeps_call|]. intros fc.
    apply keeps_bind; [apply keeps_call|]. intros packet.
    apply keeps_bind; [|intros _; apply IH].
    destruct packet; [apply keeps_ret | apply keeps_call].
Qed.

(** ** Reading the session after an update *)

Lemma is_recording_insert (key : string) (v : Value) (s : gmap string Value) :
  is_recording (<[key := v]> s) =
  if decide (key = "recording") then truthy v else is_recording s.
Proof. unfold is_recording. rewrite lookup_insert. by case_decide. Qed.

Lemma status_is_insert (key name : string) (v : Value) (s : gmap string Value) :
  status_is (<[key := v]> s) name =
  if decide (key = "status") then eq_str v name else status_is s name.
Proof. unfold status_is. rewrite lookup_insert. by case_decide. Qed.

Lemma frames_typed_insert (key : string) (v : Value) (s : gmap string Value) :
  key ≠ "frames" → frames_typed s → frames_typed (<[key := v]> s).
Proof. intros Hk Hs. unfold frames_typed in *. by rewrite lookup_insert_ne. Qed.

Lemma frames_typed_frames (fs : list VideoFrame) (s : gmap string Value) :
  frames_typed (<["frames" := VFrames fs]> s).
Proof. right. exists fs. by rewrite lookup_insert_eq. Qed.

Lemma frames_typed_delete (key : string) (s : gmap string Value) :
  frames_typed s → frames_typed (delete key s).
Proof.
  intros [H|[fs H]]; unfold frames_typed; rewrite lookup_delete; case_decide; eauto.
Qed.

Lemma uploaded_status_not_a_state (video_bytes : list Byte.byte) (name : string) :
  name = "Ready" ∨ name = "Recording" ∨ name = "Processing..." →
  String.eqb (uploaded_status video_bytes) name = false.
Proof. by intros [->|[->| ->]]. Qed.

Lemma consistent_empty : consistent ∅.
Proof. split; [done|]. split; [by left|]. intros H. discriminate H. Qed.

Lemma idle_consistent (s : gmap string Value) : idle s → consistent s.
Proof.
  intros (Hr & Hs & Hf). split; [congruence|]. split; [done|].
  intros Hrec. congruence.
Qed.

(** A key none of the three readings looks at. *)
Lemma consistent_insert_other (key : string) (v : Value) (s : gmap string Value) :
  key ≠ "recording" → key ≠ "status" → key ≠ "frames" → key ≠ "start_time" →
  consistent s → consistent (<[key := v]> s).
Proof.
  intros H1 H2 H3 H4 (Hr & Hf & Ht). unfold consistent.
  rewrite is_recording_insert, status_is_insert.
  repeat case_decide; try done.
  split; [done|]. split; [by apply frames_typed_insert|].
  intros Hrec. rewrite lookup_insert_ne by done. by apply Ht.
Qed.

Lemma consistent_insert_frames (fs : list VideoFrame) (s : gmap string Value) :
  consistent s → consistent (<["frames" := VFrames fs]> s).
Proof.
  intros (Hr & Hf & Ht). unfold consistent.
  rewrite is_recording_insert, status_is_insert.
  repeat case_decide; try done.
  split; [done|]. split; [apply frames_typed_frames|].
  intros Hrec. rewrite lookup_insert_ne by done. by apply Ht.
Qed.

Lemma idle_insert_other (key : string) (v : Value) (s : gmap string Value) :
  key ≠ "recording" → key ≠ "status" → key ≠ "frames" →
  idle s → idle (<[key := v]> s).
Proof.
  intros H1 H2 H3 (Hr & Hs & Hf). unfold idle.
  rewrite is_recording_insert, status_is_insert.
  repeat case_decide; try done.
  split; [done|]. split; [done|]. by apply frames_typed_insert.
Qed.

Lemma idle_insert_uploaded (video_bytes : list Byte.byte) (s : gmap string Value) :
  idle s → idle (<["status" := VStr (uploaded_status video_bytes)]> s).
Proof.
  intros (Hr & Hs & Hf). unfold idle.
  rewrite is_recording_insert, status_is_insert.
  repeat case_decide; try done.
  split; [done|]. split; [|by apply frames_typed_insert].
  apply uploaded_status_not_a_state. auto.
Qed.

Lemma idle_delete_frames (s : gmap string Value) : idle s → idle (delete "frames" s).
Proof.
  intros (Hr & Hs & Hf). unfold idle, is_recording, status_is in *.
  rewrite !lookup_delete_ne by done. split; [done|]. split; [done|].
  by apply frames_typed_delete.
Qed.

(** ** The stop handler, line by line *)

Lemma io_is_not_a_global : bool_decide ("io" ∈ module_globals) = false.
Proof. by vm_compute. Qed.

(** Lines 119-123, then the flush or nothing, then the rerun. *)
Lemma stop_and_upload_run (globals : list string) (env : Env) (cfg : Config) (w : World) :
  stop_and_upload globals env cfg w =
  let w1 := {| session_state := stopped (session_state w); calls := calls w |} in
  if frames_nonempty (session_state w)
  then match flush globals env cfg w1 with
       | (Ret _, w2) => (Sig Rerun, w2)
       | (Sig sg, w2) => (Sig sg, w2)
       end
  else (Sig Rerun, w1).
Proof.
  unfold stop_and_upload, frames_nonempty, stopped. exec.
  rewrite !lookup_insert_ne by done.
  destruct (session_state w !! "frames") as [v|] eqn:Hv.
  - rewrite bool_decide_eq_true_2 by eauto. cbn [session_state calls].
    rewrite !lookup_insert_ne by done. rewrite Hv.
    destruct (truthy v); [|done].
    by destruct (flush _ _ _ _) as [[[]|sg] w2].
  - by rewrite bool_decide_eq_false_2 by (by intros [? ?]).
Qed.

(** In the module as it is, the flush stops at its first line: [io] is
    no name of the module. *)
Lemma flush_NameError (env : Env) (cfg : Config) (w : World) :
  flush module_globals env cfg w = (Sig (Raise (NameError "io")), w).
Proof. unfold flush. exec. by rewrite io_is_not_a_global. Qed.

Lemma stop_and_upload_nonempty (env : Env) (cfg : Config) (w : World) :
  frames_nonempty (session_state w) = true →
  stop_and_upload module_globals env cfg w =
  (Sig (Raise (NameError "io")),
   {| session_state := stopped (session_state w); calls := calls w |}).
Proof. intros H. rewrite stop_and_upload_run. cbv zeta. by rewrite H, flush_NameError. Qed.

(** ** The blocks of the script keep the session consistent *)

Lemma keeps_init_key (P : gmap string Value → Prop) (key : string) (v : Value) :
  (∀ s, P s → s !! key = None → P (<[key := v]> s)) →
  keeps (on_session P) (init_key key v).
Proof.
  intros H w Hw. unfold init_key. rewrite bind_run. cbn [has_key].
  case_bool_decide as Hk; [done|].
  apply H; [done|]. by apply eq_None_not_Some.
Qed.

Lemma init_session_state_consistent : keeps (on_session consistent) init_session_state.
Proof.
  unfold init_session_state.
  apply keeps_bind; [|intros _; apply keeps_bind; [|intros _; apply keeps_bind; [|intros _]]];
    apply keeps_init_key; intros s (Hr & Hf & Ht) Hk.
  - unfold consistent. rewrite is_recording_insert, status_is_insert.
    repeat case_decide; try done.
    assert (is_recording s = false) as Hs by (unfold is_recording; by rewrite Hk).
    cbn [truthy]. split; [congruence|]. split; [by apply frames_typed_insert|done].
  - by apply consistent_insert_other.
  - unfold consistent. rewrite is_recording_insert, status_is_insert.
    repeat case_decide; try done.
    assert (status_is s "Recording" = false) as Hs by (unfold status_is; by rewrite Hk).
    split; [by rewrite Hr, Hs|]. split; [by apply frames_typed_insert|].
    intros Hrec. rewrite lookup_insert_ne by done. by apply Ht.
  - unfold consistent. rewrite is_recording_insert, status_is_insert.
    repeat case_decide; try done.
    split; [done|]. split; [by apply frames_typed_insert|].
    intros Hrec. destruct (Ht Hrec) as [t Hs]. congruence.
Qed.

Lemma load_secrets_keeps (I : World → Prop) (env : Env) :
  (∀ w e, I w → I {| session_state := session_state w; calls := calls w ++ [e] |}) →
  keeps I (load_secrets env).
Proof.
  intros HI. unfold load_secrets, secrets_item.
  apply keeps_try_except.
  - repeat (apply keeps_bind; [destruct (secrets env !! _); [apply keeps_ret|apply keeps_raise]|intros ?]).
    apply keeps_ret.
  - intros e h He. destruct (is_KeyError e); [|done]. injection He as <-.
    apply keeps_bind; [|intros _; apply keeps_stop].
    intros w Hw. by apply HI.
Qed.

Lemma status_metric_keeps (P : gmap string Value → Prop) (env : Env) :
  keeps (on_session P) (status_metric env).
Proof.
  unfold status_metric. apply keeps_bind; [apply keeps_get_attr|]. intros s.
  destruct (eq_str s "Recording").
  - apply keeps_bind; [apply keeps_get_attr|]. intros t.
    destruct (as_number t); [apply keeps_emit | apply keeps_raise].
  - apply keeps_bind; [apply keeps_get_attr|]. intros v. apply keeps_emit.
Qed.

Lemma st_button_keeps (P : gmap string Value → Prop) (env : Env) (b : Button) (label : string) :
  keeps (on_session P) (st_button env b label).
Proof. apply keeps_bind; [apply keeps_emit|]. intros _. apply keeps_ret. Qed.

Lemma start_recording_keeps (I : World → Prop) (env : Env) :
  keeps I (start_recording env) ↔
  ∀ w, I w → I {| session_state := started (time_start env) (session_state w);
                  calls := calls w |}.
Proof. done. Qed.

Lemma started_consistent (t : Z) (s : gmap string Value) : consistent (started t s).
Proof.
  unfold consistent, started. rewrite !is_recording_insert, !status_is_insert.
  repeat case_decide; try done.
  split; [done|]. split; [apply frames_typed_frames|].
  intros _. exists t. by simplify_map_eq.
Qed.

Lemma upload_to_s3_keeps (P : gmap string Value → Prop)
    (env : Env) (cfg : Config) (video_bytes : list Byte.byte) :
  (∀ s, P s → P (<["status" := VStr (uploaded_status video_bytes)]> s)) →
  keeps (on_session P) (upload_to_s3 env cfg video_bytes).
Proof.
  intros HP. unfold upload_to_s3. apply keeps_try_except.
  - apply keeps_bind; [apply keeps_call|]. intros _.
    apply keeps_bind; [apply keeps_emit|]. intros _.
    apply keeps_bind; [apply keeps_call|]. intros _.
    apply keeps_bind; [apply keeps_emit|]. intros _.
    apply keeps_bind; [by apply keeps_set_attr|]. intros _.
    apply keeps_bind; [apply keeps_emit|]. intros _. apply keeps_emit.
  - intros e h [= <-]. destruct e; apply keeps_emit.
Qed.

Lemma encode_session_frames_keeps (P : gmap string Value → Prop) (lib : AvLib) (v : Value) :
  keeps (on_session P) (encode_session_frames lib v).
Proof.
  destruct v as [| | |s|b|fs]; cbn [encode_session_frames];
    try apply keeps_raise.
  - destruct (String.eqb s ""); [apply keeps_ret|apply keeps_raise].
  - destruct b; [apply keeps_ret|apply keeps_raise].
  - apply keeps_encode_frames.
Qed.

Lemma flush_keeps (P : gmap string Value → Prop)
    (globals : list string) (env : Env) (cfg : Config) :
  flush_closed P → keeps (on_session P) (flush globals env cfg).
Proof.
  intros (Hv & Hs & Hd). unfold flush.
  apply keeps_bind; [apply keeps_name_lookup|]. intros _.
  apply keeps_bind; [apply keeps_call|]. intros _.
  apply keeps_bind; [apply keeps_call|]. intros _.
  apply keeps_bind; [apply keeps_get_attr|]. intros v.
  apply keeps_bind; [apply encode_session_frames_keeps|]. intros muxed.
  apply keeps_bind; [apply keeps_call|]. intros _.
  apply keeps_bind; [apply keeps_call|]. intros video_bytes.
  apply keeps_bind; [apply keeps_set_attr; intros s; by apply Hv|]. intros _.
  apply keeps_bind; [apply upload_to_s3_keeps; intros s; by apply Hs|]. intros _.
  by apply keeps_del_attr.
Qed.

(** A property that holds once lines 119-120 have run, and that the
    flush cannot break, holds when the handler ends, however it ends. *)
Lemma stop_and_upload_ends (P : gmap string Value → Prop)
    (globals : list string) (env : Env) (cfg : Config) (w : World) :
  flush_closed P → P (stopped (session_state w)) →
  P (session_state (stop_and_upload globals env cfg w).2).
Proof.
  intros HP Hw. rewrite stop_and_upload_run. cbv zeta.
  destruct (frames_nonempty (session_state w)); [|done].
  pose proof (flush_keeps P globals env cfg HP
    {| session_state := stopped (session_state w); calls := calls w |} Hw) as H.
  by destruct (flush _ _ _ _) as [[[]|sg] w2].
Qed.

Lemma idle_flush_closed : flush_closed idle.
Proof.
  split; [|split].
  - intros s v. by apply idle_insert_other.
  - intros s video_bytes. apply idle_insert_uploaded.
  - apply idle_delete_frames.
Qed.

Lemma stopped_idle (s : gmap string Value) : frames_typed s → idle (stopped s).
Proof.
  intros Hf. unfold idle, stopped. rewrite !is_recording_insert, !status_is_insert.
  repeat case_decide; try done.
  split; [done|]. split; [done|]. by do 2 (apply frames_typed_insert; [done|]).
Qed.

Lemma stop_and_upload_consistent (globals : list string) (env : Env) (cfg : Config) :
  keeps (on_session consistent) (stop_and_upload globals env cfg).
Proof.
  intros w (_ & Hf & _). apply idle_consistent.
  apply stop_and_upload_ends; [apply idle_flush_closed|by apply stopped_idle].
Qed.

Lemma controls_consistent (globals : list string) (env : Env) (cfg : Config) :
  keeps (on_session consistent) (controls globals env cfg).
Proof.
  unfold controls. apply keeps_bind.
  { destruct (playing env); [|apply keeps_ret].
    apply keeps_bind; [apply keeps_get_attr|]. intros r. apply keeps_ret. }
  intros can_start. destruct can_start.
  - apply keeps_bind; [apply st_button_keeps|]. intros b.
    destruct b; [|apply keeps_ret].
    apply start_recording_keeps. intros w _. apply started_consistent.
  - apply keeps_bind; [apply keeps_get_attr|]. intros r.
    destruct (truthy r); [|apply keeps_ret].
    apply keeps_bind; [apply st_button_keeps|]. intros b.
    destruct b; [apply stop_and_upload_consistent | apply keeps_ret].
Qed.

(** [if key in st.session_state: del st.session_state[key]]: the key is
    gone afterwards, whether it was there or not. *)
Lemma forget_key_run (key : string) (w : World) :
  (c ← has_key key; if (c : bool) then del_item key else mret ()) w =
  (Ret (), {| session_state := delete key (session_state w); calls := calls w |}).
Proof.
  rewrite bind_run. cbn [has_key]. unfold del_item.
  case_bool_decide as Hk.
  - destruct Hk as [v Hv]. by rewrite Hv.
  - apply eq_None_not_Some in Hk. rewrite delete_id by done. by destruct w.
Qed.

Lemma forget_session_keys_run (w : World) :
  for_each session_keys
    (λ key, c ← has_key key; if (c : bool) then del_item key else mret ()) w =
  (Ret (), {| session_state := forgotten (session_state w); calls := calls w |}).
Proof.
  unfold session_keys. cbn [for_each].
  repeat (rewrite bind_run, forget_key_run; cbn [session_state calls]).
  done.
Qed.

Lemma forgotten_lookup (s : gmap string Value) (key : string) :
  forgotten s !! key = if bool_decide (key ∈ session_keys) then None else s !! key.
Proof.
  unfold forgotten. rewrite !lookup_delete.
  case_bool_decide as Hk; unfold session_keys in Hk.
  - repeat (apply elem_of_cons in Hk as [->|Hk]; [by repeat case_decide|]).
    by apply elem_of_nil in Hk.
  - repeat case_decide; subst; try done; exfalso; apply Hk; set_solver.
Qed.

Lemma forgotten_consistent (s : gmap string Value) : consistent (forgotten s).
Proof.
  unfold consistent, is_recording, status_is, frames_typed.
  rewrite !forgotten_lookup. cbn. split; [done|]. split; [by left|done].
Qed.

Lemma new_recording_run (env : Env) (w : World) :
  new_recording env w =
  if bool_decide (clicked env = Some BtnNew)
  then (Sig Rerun, {| session_state := forgotten (session_state w);
                      calls := calls w ++ [UiButton "📹 **New Recording**"] |})
  else (Ret (), {| session_state := session_state w;
                   calls := calls w ++ [UiButton "📹 **New Recording**"] |}).
Proof.
  unfold new_recording, st_button. rewrite !bind_run. cbn [emit].
  rewrite ret_run. case_bool_decide; [|done].
  by rewrite bind_run, forget_session_keys_run.
Qed.

Lemma new_recording_consistent (env : Env) :
  keeps (on_session consistent) (new_recording env).
Proof.
  intros w Hw. rewrite new_recording_run. case_bool_decide; [|done].
  apply forgotten_consistent.
Qed.

Lemma run_script_consistent (globals : list string) (env : Env) :
  keeps (on_session consistent) (run_script globals env).
Proof.
  unfold run_script.
  apply keeps_bind; [by apply load_secrets_keeps|]. intros cfg.
  apply keeps_bind; [apply keeps_emit|]. intros _.
  apply keeps_bind; [apply keeps_emit|]. intros _.
  apply keeps_bind; [apply init_session_state_consistent|]. intros _.
  apply keeps_bind; [apply keeps_emit|]. intros _.
  apply keeps_bind; [apply keeps_emit|]. intros _.
  apply keeps_bind; [apply status_metric_keeps|]. intros _.
  apply keeps_bind; [apply controls_consistent|]. intros _.
  apply keeps_bind; [apply new_recording_consistent|]. intros _.
  apply keeps_bind; [apply keeps_emit|]. intros _.
  apply keeps_emit.
Qed.

Lemma list_append_keeps (P : gmap string Value → Prop) (frame : VideoFrame) :
  (∀ s fs, P s → P (<["frames" := VFrames fs]> s)) →
  keeps (on_session P) (list_append "frames" frame).
Proof.
  intros H. unfold list_append.
  apply keeps_bind; [apply keeps_get_attr|]. intros v.
  destruct v; try apply keeps_raise. apply keeps_set_attr. intros s. apply H.
Qed.

Lemma video_frame_callback_consistent (frame : VideoFrame) :
  keeps (on_session consistent) (video_frame_callback frame).
Proof.
  unfold video_frame_callback.
  apply keeps_bind; [apply keeps_get_attr|]. intros r.
  apply keeps_bind; [|intros _; apply keeps_ret].
  destruct (truthy r); [|apply keeps_ret].
  apply keeps_bind; [apply keeps_has_key|]. intros c.
  apply keeps_bind.
  - destruct c; [apply keeps_ret|].
    apply keeps_set_attr. intros s. apply consistent_insert_frames.
  - intros _. apply list_append_keeps. intros s fs. apply consistent_insert_frames.
Qed.

(** Every session the script and the transport can produce is
    consistent. *)
Lemma replay_consistent (events : list Event) : consistent (replay events).
Proof.
  unfold replay. induction events as [|ev events IH] using rev_ind.
  - apply consistent_empty.
  - rewrite foldl_snoc. destruct ev as [env|frame]; cbn [after].
    + by apply (run_script_consistent module_globals env (fresh _)).
    + by apply (video_frame_callback_consistent frame (fresh _)).
Qed.

(** ** The frame callback *)

(** What the callback does, by what the session holds. *)
Lemma video_frame_callback_run (frame : VideoFrame) (w : World) :
  video_frame_callback frame w =
  match session_state w !! "recording" with
  | None => (Sig (Raise (AttributeError "recording")), w)
  | Some r =>
      if truthy r then
        match session_state w !! "frames" with
        | None =>
            (Ret frame, {| session_state := <["frames" := VFrames [frame]]> (session_state w);
                           calls := calls w |})
        | Some (VFrames fs) =>
            (Ret frame, {| session_state := <["frames" := VFrames (fs ++ [frame])]> (session_state w);
                           calls := calls w |})
        | Some _ => (Sig (Raise (AttributeError "append")), w)
        end
      else (Ret frame, w)
  end.
Proof.
  unfold video_frame_callback, list_append. exec.
  destruct (session_state w !! "recording") as [r|]; [|done].
  destruct (truthy r); [|done].
  case_bool_decide as Hk.
  - destruct Hk as [v Hv]. rewrite Hv. by destruct v.
  - apply eq_None_not_Some in Hk. rewrite Hk.
    cbn [session_state calls]. rewrite lookup_insert_eq.
    cbn [session_state calls app]. by rewrite insert_insert_eq.
Qed.

Lemma frame_buffer_insert (fs : list VideoFrame) (s : gmap string Value) :
  frame_buffer (<["frames" := VFrames fs]> s) = fs.
Proof. unfold frame_buffer. by rewrite lookup_insert_eq. Qed.

(** C1. After every sequence of script runs and frame deliveries, the
    recording flag is on exactly when the status reads Recording, and a
    frame the transport delivers then is appended to the frame buffer
    (the rest of the session stays as it is) if the recorder is
    recording, and changes nothing in the session otherwise: the buffer
    grows if and only if the recorder is recording. *)
Theorem frame_buffered_iff_recording (events : list Event) (frame : VideoFrame) :
  let s := replay events in
  let r := video_frame_callback frame (fresh s) in
  (is_recording s = true ↔ status_is s "Recording" = true) ∧
  (if is_recording s
   then r.1 = Ret frame ∧
        session_state r.2 = <["frames" := VFrames (frame_buffer s ++ [frame])]> s
   else session_state r.2 = s) ∧
  (frame_buffer (session_state r.2) ≠ frame_buffer s ↔ is_recording s = true).
Proof.
  intros s r. destruct (replay_consistent events) as (Hr & Hf & _). fold s in Hr, Hf.
  assert (if is_recording s
          then r.1 = Ret frame ∧
               session_state r.2 = <["frames" := VFrames (frame_buffer s ++ [frame])]> s
          else session_state r.2 = s) as Hrun.
  { subst r. rewrite video_frame_callback_run. cbn [fresh session_state].
    unfold is_recording, frame_buffer.
    destruct (s !! "recording") as [v|]; [|done].
    destruct (truthy v); [|done].
    destruct Hf as [Hf|[fs Hf]]; by rewrite Hf. }
  split; [by rewrite Hr|]. split; [done|].
  destruct (is_recording s).
  - destruct Hrun as [_ ->]. rewrite frame_buffer_insert. split; [done|].
    intros _ Heq. apply (f_equal length) in Heq. rewrite length_app in Heq.
    cbn in Heq. lia.
  - rewrite Hrun. split; [done|discriminate].
Qed.

(** ** Stopping *)

(** C4. Stopping with an empty frame buffer (the key [frames] absent, or
    holding an empty list) skips the flush: the handler only turns the
    recording flag off, sets the status to Processing... and asks for a
    rerun.  It adds no call to the log (no encoder call, no upload, no
    error message) and it raises nothing. *)
Theorem stop_with_empty_buffer_short_circuits
    (globals : list string) (env : Env) (cfg : Config) (w : World) :
  frames_nonempty (session_state w) = false →
  stop_and_upload globals env cfg w =
  (Sig Rerun, {| session_state := stopped (session_state w); calls := calls w |}).
Proof. intros H. rewrite stop_and_upload_run. cbv zeta. by rewrite H. Qed.

Lemma stop_with_empty_buffer_short_circuits_witness :
  let w := fresh recording_no_frames in
  frames_nonempty (session_state w) = false ∧
  stop_and_upload module_globals (click BtnStop) sample_cfg w =
  (Sig Rerun, {| session_state := stopped (session_state w); calls := [] |}).
Proof.
  split; [reflexivity|].
  apply (stop_with_empty_buffer_short_circuits module_globals (click BtnStop)).
  reflexivity.
Defined.

(** ** The upload *)

(** The three ways an upload can go: the client cannot be made, the PUT
    fails, or the object is stored. *)
Lemma upload_to_s3_run (env : Env) (cfg : Config) (video_bytes : list Byte.byte) (w : World) :
  upload_to_s3 env cfg video_bytes w =
  let key := file_key (localtime env) (uuid4 env) in
  match boto3_client env with
  | inl e =>
      (Ret (), {| session_state := session_state w;
                  calls := calls w ++ [Boto3Client (AWS_REGION cfg);
                                       UiError (upload_error_message cfg e)] |})
  | inr _ =>
      match put_object env (S3_BUCKET cfg) key video_bytes with
      | inl e =>
          (Ret (), {| session_state := session_state w;
                      calls := calls w ++
                        [Boto3Client (AWS_REGION cfg); UiProgress 0;
                         S3PutObject (S3_BUCKET cfg) key video_bytes "video/x-matroska";
                         UiError (upload_error_message cfg e)] |})
      | inr _ =>
          (Ret (), {| session_state :=
                        <["status" := VStr (uploaded_status video_bytes)]> (session_state w);
                      calls := calls w ++ upload_calls env cfg video_bytes |})
      end
  end.
Proof.
  unfold upload_to_s3, get_s3_client, upload_calls. exec.
  destruct (boto3_client env) as [e|[]].
  { cbn [upload_handler]. by destruct e; exec; tidy. }
  destruct (put_object env _ _ _) as [e|[]].
  { cbn [upload_handler]. by destruct e; exec; tidy. }
  by tidy.
Qed.

(** Whatever boto3 does, the upload returns to its caller. *)
Lemma upload_to_s3_returns (env : Env) (cfg : Config) (video_bytes : list Byte.byte) (w : World) :
  (upload_to_s3 env cfg video_bytes w).1 = Ret ().
Proof.
  rewrite upload_to_s3_run. cbv zeta.
  destruct (boto3_client env) as [e|[]]; [done|].
  by destruct (put_object env _ _ _) as [e|[]].
Qed.

Lemma after_stop_flush_closed : flush_closed after_stop.
Proof.
  split; [|split].
  - intros s v [Hr Hs]. split; by rewrite lookup_insert_ne by done.
  - intros s video_bytes [Hr Hs]. split; [by rewrite lookup_insert_ne by done|].
    right. exists video_bytes. by rewrite lookup_insert_eq.
  - intros s [Hr Hs]. split; by rewrite lookup_delete_ne by done.
Qed.

Lemma after_stop_not_ready (s : gmap string Value) :
  after_stop s → is_recording s = false ∧ status_is s "Ready" = false.
Proof.
  intros [Hr Hs]. unfold is_recording, status_is. rewrite Hr. split; [done|].
  destruct Hs as [->|[video_bytes ->]]; [done|].
  apply uploaded_status_not_a_state. auto.
Qed.

(** C3, as the code has it. However the stop handler ends, it leaves the
    recording flag off and the status at Processing... or, after an
    upload that went through, at the uploaded note: the status is not
    set back to Ready.  When the object store answers the PUT with a
    ClientError, [upload_to_s3] returns to its caller, shows the S3
    error message (bucket or permissions) and leaves the session as it
    was. *)
Theorem stop_leaves_flag_off_and_status_not_ready
    (globals : list string) (env : Env) (cfg : Config) (w : World) :
  let s' := session_state (stop_and_upload globals env cfg w).2 in
  (after_stop s' ∧ is_recording s' = false ∧ status_is s' "Ready" = false) ∧
  (∀ video_bytes msg,
     boto3_client env = inr () →
     put_object env (S3_BUCKET cfg) (file_key (localtime env) (uuid4 env)) video_bytes
       = inl (ClientError msg) →
     upload_to_s3 env cfg video_bytes w =
     (Ret (), {| session_state := session_state w;
                 calls := calls w ++
                   [Boto3Client (AWS_REGION cfg); UiProgress 0;
                    S3PutObject (S3_BUCKET cfg) (file_key (localtime env) (uuid4 env))
                      video_bytes "video/x-matroska";
                    UiError (s3_error_message cfg (ClientError msg))] |})).
Proof.
  intros s'. split.
  - assert (after_stop s') as H.
    { apply stop_and_upload_ends; [apply after_stop_flush_closed|].
      unfold stopped. split; [by rewrite lookup_insert_ne, lookup_insert_eq|].
      left. by rewrite lookup_insert_eq. }
    split; [done|]. by apply after_stop_not_ready.
  - intros video_bytes msg Hc Hp. rewrite upload_to_s3_run. cbv zeta.
    by rewrite Hc, Hp.
Qed.

Lemma stop_leaves_flag_off_and_status_not_ready_witness :
  let w := fresh (stopped recording_no_frames) in
  boto3_client denied_env = inr () ∧
  upload_to_s3 denied_env sample_cfg [Byte.x1a; Byte.x45] w =
  (Ret (), {| session_state := session_state w;
              calls := [Boto3Client "us-east-1"; UiProgress 0;
                        S3PutObject "recordings-bucket"
                          (file_key sample_time (uuid4 denied_env))
                          [Byte.x1a; Byte.x45] "video/x-matroska";
                        UiError (s3_error_message sample_cfg (ClientError "AccessDenied"))] |}).
Proof.
  split; [reflexivity|].
  exact (proj2 (stop_leaves_flag_off_and_status_not_ready module_globals denied_env
                  sample_cfg (fresh (stopped recording_no_frames)))
               [Byte.x1a; Byte.x45] "AccessDenied" eq_refl eq_refl).
Defined.

(** C3 as stated fails: a recording with no frame is stopped, the
    handler and the rerun it asks for both complete, and the status is
    Processing..., not Ready; and an upload the store refuses leaves
    that status where it is. *)
Lemma stop_does_not_return_to_ready :
  let r := interact module_globals (click BtnStop) sample_env (fresh recording_no_frames) in
  let u := upload_to_s3 denied_env sample_cfg [Byte.x1a; Byte.x45] r.2 in
  status_is recording_no_frames "Recording" = true ∧
  r.1 = Ret () ∧
  status_is (session_state r.2) "Ready" = false ∧
  status_is (session_state r.2) "Processing..." = true ∧
  u.1 = Ret () ∧
  status_is (session_state u.2) "Ready" = false.
Proof. cbv zeta. repeat apply conj; vm_compute; reflexivity. Qed.

(** ** Starting *)

(** C2, as the code has it. A Start click is handled exactly when the
    transport is playing and the recording flag is off, whatever the
    status says: the handler turns the flag on, stores the start time,
    sets the status to Recording, empties the frame buffer and asks for
    a rerun.  In every other case (recording already, or the transport
    not playing) the button is not drawn and the click changes nothing
    in the session; nothing is raised. *)
Theorem start_gated_by_playing_and_flag
    (globals : list string) (env : Env) (cfg : Config) (w : World) (v : Value) :
  clicked env = Some BtnStart →
  session_state w !! "recording" = Some v →
  controls globals env cfg w =
  if playing env && negb (truthy v)
  then (Sig Rerun, {| session_state := started (time_start env) (session_state w);
                      calls := calls w ++ [UiButton "🔴 **Start Recording**"] |})
  else (Ret (), {| session_state := session_state w;
                   calls := calls w ++
                     (if truthy v then [UiButton "⏹️ **Stop & Upload**"] else []) |}).
Proof.
  intros Hc Hv. unfold controls, st_button, start_recording, started. exec.
  rewrite Hc.
  change (bool_decide (Some BtnStart = Some BtnStart)) with true.
  change (bool_decide (Some BtnStart = Some BtnStop)) with false.
  destruct (truthy v) eqn:Ht, (playing env);
    repeat first [rewrite Hv | rewrite Ht | progress cbn [andb negb session_state calls app]];
    rewrite <- ?app_assoc, ?app_nil_r; try done.
  all: by destruct w.
Qed.

Lemma start_gated_by_playing_and_flag_witness :
  let w := fresh recording_no_frames in
  controls module_globals (click BtnStart) sample_cfg w =
  (Ret (), {| session_state := recording_no_frames;
              calls := [UiButton "⏹️ **Stop & Upload**"] |}).
Proof.
  apply (start_gated_by_playing_and_flag module_globals (click BtnStart) sample_cfg
           (fresh recording_no_frames) (VBool true)); reflexivity.
Defined.

(** C2 as stated fails. A session stopped with no frame shows the status
    Processing..., not Ready; a Start click is accepted there all the
    same: the run ends with the rerun request, raises nothing, and the
    recorder is recording.  And in a Ready session whose transport is
    not playing, a Start click starts nothing and raises nothing. *)
Lemma start_is_not_gated_by_ready :
  let processing :=
    session_state (interact module_globals (click BtnStop) sample_env
                     (fresh recording_no_frames)).2 in
  let r := App (click BtnStart) (fresh processing) in
  let ready := replay [ScriptRun sample_env] in
  let q := App (with_playing false (click BtnStart)) (fresh ready) in
  status_is processing "Ready" = false ∧
  status_is processing "Processing..." = true ∧
  r.1 = Sig Rerun ∧
  status_is (session_state r.2) "Recording" = true ∧
  is_recording (session_state r.2) = true ∧
  status_is ready "Ready" = true ∧
  q.1 = Ret () ∧
  session_state q.2 = ready.
Proof. cbv zeta. repeat apply conj; vm_compute; reflexivity. Qed.

(** ** The encode loop *)

(** The loop talks to PyAV only and leaves the session alone; it ends
    with the packets or with an exception, and it returns only if every
    frame could be reformatted. *)
Lemma encode_frames_run (lib : AvLib) (frames : list VideoFrame) :
  ∀ (fed : list VideoFrame) (muxed : list Packet) (w : World),
  ∃ r l,
    encode_frames lib fed muxed frames w =
      (r, {| session_state := session_state w; calls := calls w ++ l |}) ∧
    forallb is_av_call l = true ∧
    match r with
    | Ret _ => ∀ f, f ∈ frames → ∃ fc, av_reformat lib f = inr fc
    | Sig (Raise _) => True
    | Sig _ => False
    end.
Proof.
  induction frames as [|frame rest IH]; intros fed muxed w.
  - exists (Ret muxed), []. rewrite app_nil_r. split; [by destruct w|].
    split; [done|]. intros f Hf. by apply elem_of_nil in Hf.
  - cbn [encode_frames]. exec.
    destruct (av_reformat lib frame) as [exc|fc] eqn:Hre.
    { exists (Sig (Raise exc)), [AvReformat frame 1280 720]. by tidy. }
    tidy. destruct (av_encode lib fed fc) as [exc|packet].
    { exists (Sig (Raise exc)), [AvReformat frame 1280 720; AvEncode fc]. by tidy. }
    tidy. destruct packet as [|p packet].
    + destruct (IH (fed ++ [fc]) (muxed ++ [])
                  {| session_state := session_state w;
                     calls := calls w ++ [AvReformat frame 1280 720; AvEncode fc] |})
        as (r & l & Hrun & Hl & Hr).
      exists r, ([AvReformat frame 1280 720; AvEncode fc] ++ l).
      rewrite Hrun. tidy. split; [done|]. split; [done|].
      destruct r as [a|[e| |]]; try done.
      intros f [->|Hf]%elem_of_cons; eauto.
    + exec. tidy. destruct (av_mux lib (p :: packet)) as [exc|[]].
      { exists (Sig (Raise exc)),
          [AvReformat frame 1280 720; AvEncode fc; AvMux (p :: packet)]. by tidy. }
      tidy.
      destruct (IH (fed ++ [fc]) (muxed ++ p :: packet)
                  {| session_state := session_state w;
                     calls := calls w ++ [AvReformat frame 1280 720; AvEncode fc;
                                          AvMux (p :: packet)] |})
        as (r & l & Hrun & Hl & Hr).
      exists r, ([AvReformat frame 1280 720; AvEncode fc; AvMux (p :: packet)] ++ l).
      rewrite Hrun. tidy. split; [done|]. split; [done|].
      destruct r as [a|[e| |]]; try done.
      intros f [->|Hf]%elem_of_cons; eauto.
Qed.

(** The loop stops at the first frame [reformat] refuses: the frames
    behind it have no part in the result. *)
Lemma encode_frames_stops_at_failure (lib : AvLib) (pre post : list VideoFrame)
    (bad : VideoFrame) (exc : PyExc) :
  av_reformat lib bad = inl exc →
  ∀ (fed : list VideoFrame) (muxed muxed' : list Packet) (w w' : World),
  encode_frames lib fed muxed pre w = (Ret muxed', w') →
  encode_frames lib fed muxed (pre ++ bad :: post) w =
  (Sig (Raise exc), {| session_state := session_state w';
                       calls := calls w' ++ [AvReformat bad 1280 720] |}).
Proof.
  intros Hbad. induction pre as [|frame pre IH]; intros fed muxed muxed' w w' Hpre.
  - cbn in Hpre. injection Hpre as <- <-. cbn [app encode_frames]. exec.
    by rewrite Hbad.
  - cbn [app encode_frames] in *. revert Hpre. exec.
    destruct (av_reformat lib frame) as [?|fc]; [done|]. tidy.
    destruct (av_encode lib fed fc) as [?|packet]; [done|]. tidy.
    destruct packet as [|p packet]; [by apply IH|].
    exec. tidy. destruct (av_mux lib (p :: packet)) as [?|[]]; [done|]. by apply IH.
Qed.

(** The flush on a buffer with a frame [reformat] refuses. *)
Lemma flush_aborts (globals : list string) (env : Env) (cfg : Config) (w : World)
    (fs : list VideoFrame) (bad : VideoFrame) (exc : PyExc) :
  session_state w !! "frames" = Some (VFrames fs) →
  bad ∈ fs →
  av_reformat (av env) bad = inl exc →
  ∃ e l,
    flush globals env cfg w =
      (Sig (Raise e), {| session_state := session_state w; calls := calls w ++ l |}) ∧
    forallb is_av_call l = true.
Proof.
  intros Hfs Hbad Hexc. unfold flush. exec.
  case_bool_decide.
  2:{ exists (NameError "io"), []. rewrite app_nil_r. by destruct w. }
  tidy. destruct (av_open (av env)) as [e|[]].
  { exists e, [AvOpen "matroska"]. by tidy. }
  tidy. destruct (av_add_stream (av env)) as [e|[]].
  { exists e, [AvOpen "matroska"; AvAddStream "libx264" 30]. by tidy. }
  tidy. rewrite Hfs. cbn [encode_session_frames].
  destruct (encode_frames_run (av env) fs [] []
              {| session_state := session_state w;
                 calls := calls w ++ [AvOpen "matroska"; AvAddStream "libx264" 30] |})
    as (r & l & Hrun & Hl & Hr).
  rewrite Hrun. destruct r as [a|[e| |]]; try done.
  - destruct (Hr bad Hbad) as [fc Hfc]. congruence.
  - exists e, ([AvOpen "matroska"; AvAddStream "libx264" 30] ++ l). by tidy.
Qed.

(** Nothing around the loop catches its exception, in any module
    namespace: with a frame in the buffer that cannot be normalized, the
    stop handler ends with an exception.  On the way it has called PyAV
    at most, and the session is as lines 119-120 left it, the frames
    still there. *)
Lemma stop_and_upload_aborts
    (globals : list string) (env : Env) (cfg : Config) (w : World)
    (fs : list VideoFrame) (bad : VideoFrame) (exc : PyExc) :
  session_state w !! "frames" = Some (VFrames fs) →
  bad ∈ fs →
  av_reformat (av env) bad = inl exc →
  ∃ e l,
    stop_and_upload globals env cfg w =
      (Sig (Raise e), {| session_state := stopped (session_state w);
                         calls := calls w ++ l |}) ∧
    forallb is_av_call l = true.
Proof.
  intros Hfs Hbad Hexc. rewrite stop_and_upload_run. cbv zeta.
  unfold frames_nonempty. rewrite Hfs.
  destruct fs as [|f fs]; [by apply elem_of_nil in Hbad|]. cbn [truthy].
  destruct (flush_aborts globals env cfg
              {| session_state := stopped (session_state w); calls := calls w |}
              (f :: fs) bad exc) as (e & l & Hrun & Hl); [|done|done|].
  { unfold stopped. cbn [session_state]. by rewrite !lookup_insert_ne by done. }
  rewrite Hrun. by exists e, l.
Qed.

(** The loop, call by call: what it hands to PyAV, and how it ends. *)
Lemma encode_frames_trace (lib : AvLib) (frames : list VideoFrame) :
  ∀ (fed : list VideoFrame) (muxed : list Packet) (w : World),
  ∃ r l,
    encode_frames lib fed muxed frames w =
      (r, {| session_state := session_state w; calls := calls w ++ l |}) ∧
    forallb is_av_call l = true ∧
    reformat_args l `prefix_of` frames ∧
    Forall (λ packets, packets ≠ []) (mux_args l) ∧
    match r with
    | Ret muxed' =>
        reformat_args l = frames ∧
        Forall2 (λ frame converted, av_reformat lib frame = inr converted)
                frames (encode_args l) ∧
        muxed' = muxed ++ concat (mux_args l)
    | Sig s => ∃ e, s = Raise e
    end.
Proof.
  induction frames as [|frame rest IH]; intros fed muxed w.
  - exists (Ret muxed), []. rewrite !app_nil_r. split; [by destruct w|].
    split; [done|]. split; [done|]. split; [by constructor|]. by repeat split.
  - cbn [encode_frames]. exec.
    destruct (av_reformat lib frame) as [exc|fc] eqn:Hre.
    { exists (Sig (Raise exc)), [AvReformat frame 1280 720]. tidy.
      split; [done|]. split; [done|]. split; [by apply prefix_cons, prefix_nil|].
      split; [by constructor|by eexists]. }
    tidy. destruct (av_encode lib fed fc) as [exc|packet].
    { exists (Sig (Raise exc)), [AvReformat frame 1280 720; AvEncode fc]. tidy.
      split; [done|]. split; [done|]. split; [by apply prefix_cons, prefix_nil|].
      split; [by constructor|by eexists]. }
    tidy. destruct packet as [|p packet].
    + destruct (IH (fed ++ [fc]) (muxed ++ [])
                  {| session_state := session_state w;
                     calls := calls w ++ [AvReformat frame 1280 720; AvEncode fc] |})
        as (r & l & Hrun & Hav & Hpre & Hmux & Hr).
      exists r, ([AvReformat frame 1280 720; AvEncode fc] ++ l).
      rewrite Hrun. tidy. split; [done|]. split; [done|].
      change (reformat_args (AvReformat frame 1280 720 :: AvEncode fc :: l))
        with (frame :: reformat_args l).
      change (encode_args (AvReformat frame 1280 720 :: AvEncode fc :: l))
        with (fc :: encode_args l).
      change (mux_args (AvReformat frame 1280 720 :: AvEncode fc :: l)) with (mux_args l).
      split; [by apply prefix_cons|]. split; [done|].
      destruct r as [muxed'|sg]; [|done].
      destruct Hr as (Hre' & Henc & Hm). split; [by rewrite Hre'|].
      split; [by constructor|]. by rewrite Hm, app_nil_r.
    + exec. tidy. destruct (av_mux lib (p :: packet)) as [exc|[]].
      { exists (Sig (Raise exc)),
          [AvReformat frame 1280 720; AvEncode fc; AvMux (p :: packet)]. tidy.
        split; [done|]. split; [done|]. split; [by apply prefix_cons, prefix_nil|].
        split; [by repeat constructor|by eexists]. }
      tidy.
      destruct (IH (fed ++ [fc]) (muxed ++ p :: packet)
                  {| session_state := session_state w;
                     calls := calls w ++ [AvReformat frame 1280 720; AvEncode fc;
                                          AvMux (p :: packet)] |})
        as (r & l & Hrun & Hav & Hpre & Hmux & Hr).
      exists r, ([AvReformat frame 1280 720; AvEncode fc; AvMux (p :: packet)] ++ l).
      rewrite Hrun. tidy. split; [done|]. split; [done|].
      change (reformat_args (AvReformat frame 1280 720 :: AvEncode fc :: AvMux (p :: packet) :: l))
        with (frame :: reformat_args l).
      change (encode_args (AvReformat frame 1280 720 :: AvEncode fc :: AvMux (p :: packet) :: l))
        with (fc :: encode_args l).
      change (mux_args (AvReformat frame 1280 720 :: AvEncode fc :: AvMux (p :: packet) :: l))
        with ((p :: packet) :: mux_args l).
      split; [by apply prefix_cons|]. split; [by constructor|].
      destruct r as [muxed'|sg]; [|done].
      destruct Hr as (Hre' & Henc & Hm). split; [by rewrite Hre'|].
      split; [by constructor|]. rewrite Hm. cbn [concat]. by rewrite <- app_assoc.
Qed.

(** Once the loop has ended without a value, the frames behind play no
    part. *)
Lemma encode_frames_ends_early (lib : AvLib) (pre post : list VideoFrame) (s : Signal) :
  ∀ (fed : list VideoFrame) (muxed : list Packet) (w w' : World),
  encode_frames lib fed muxed pre w = (Sig s, w') →
  encode_frames lib fed muxed (pre ++ post) w = (Sig s, w').
Proof.
  induction pre as [|frame pre IH]; intros fed muxed w w' Hpre; [done|].
  cbn [app encode_frames] in *. revert Hpre. exec.
  destruct (av_reformat lib frame) as [?|fc]; [done|]. tidy.
  destruct (av_encode lib fed fc) as [?|packet]; [done|]. tidy.
  destruct packet as [|p packet]; [by apply IH|].
  exec. tidy. destruct (av_mux lib (p :: packet)) as [?|[]]; [done|]. by apply IH.
Qed.

(** C5, as the code has it. The loop of lines 130-134 has no handler
    around [reformat].  Run on a buffer [pre ++ bad :: post] whose frame
    [bad] cannot be normalized, it never completes, and it ends at
    [bad] at the latest.  If the frames before [bad] went through, it
    ends with the very exception of [bad]'s [reformat], and that call
    is its last: what it has called is what the frames before [bad]
    needed, then [reformat] on [bad].  If a call for an earlier frame
    raised, the loop ended there, with that exception.  Either way the
    frames behind [bad] are neither reformatted nor encoded, [bad] is
    not skipped, every call is a call to PyAV (no warning is shown) and
    the session is untouched. *)
Theorem normalization_failure_aborts_flush
    (lib : AvLib) (pre post : list VideoFrame) (bad : VideoFrame) (exc : PyExc)
    (fed : list VideoFrame) (muxed : list Packet) (w : World) :
  av_reformat lib bad = inl exc →
  ∃ r l,
    encode_frames lib fed muxed pre w =
      (r, {| session_state := session_state w; calls := calls w ++ l |}) ∧
    forallb is_av_call l = true ∧
    reformat_args l `prefix_of` pre ∧
    match r with
    | Ret _ =>
        reformat_args l = pre ∧
        encode_frames lib fed muxed (pre ++ bad :: post) w =
          (Sig (Raise exc),
           {| session_state := session_state w;
              calls := calls w ++ l ++ [AvReformat bad 1280 720] |})
    | Sig s =>
        (∃ e, s = Raise e) ∧
        encode_frames lib fed muxed (pre ++ bad :: post) w =
          (Sig s, {| session_state := session_state w; calls := calls w ++ l |})
    end.
Proof.
  intros Hbad.
  destruct (encode_frames_trace lib pre fed muxed w) as (r & l & Hrun & Hav & Hpre & _ & Hr).
  exists r, l. split; [done|]. split; [done|]. split; [done|].
  destruct r as [muxed'|s].
  - destruct Hr as (Hall & _). split; [done|].
    rewrite (encode_frames_stops_at_failure lib pre post bad exc Hbad _ _ _ _ _ Hrun).
    cbn [session_state calls]. by rewrite <- app_assoc.
  - split; [done|]. by apply encode_frames_ends_early.
Qed.

Lemma normalization_failure_aborts_flush_witness :
  av_reformat picky_av (sample_frame 1) = inl (OtherError "cannot reformat") ∧
  ∃ r l,
    encode_frames picky_av [] [] [sample_frame 0] (fresh ∅) =
      (r, {| session_state := ∅; calls := [] ++ l |}) ∧
    forallb is_av_call l = true ∧
    reformat_args l `prefix_of` [sample_frame 0] ∧
    match r with
    | Ret _ =>
        reformat_args l = [sample_frame 0] ∧
        encode_frames picky_av [] [] ([sample_frame 0] ++ sample_frame 1 :: [sample_frame 2])
                      (fresh ∅) =
          (Sig (Raise (OtherError "cannot reformat")),
           {| session_state := ∅; calls := [] ++ l ++ [AvReformat (sample_frame 1) 1280 720] |})
    | Sig s =>
        (∃ e, s = Raise e) ∧
        encode_frames picky_av [] [] ([sample_frame 0] ++ sample_frame 1 :: [sample_frame 2])
                      (fresh ∅) =
          (Sig s, {| session_state := ∅; calls := [] ++ l |})
    end.
Proof.
  split; [reflexivity|].
  apply (normalization_failure_aborts_flush picky_av [sample_frame 0] [sample_frame 2]
           (sample_frame 1) (OtherError "cannot reformat") [] [] (fresh ∅)).
  reflexivity.
Defined.

(** C5 as stated fails: of three buffered frames the second cannot be
    reformatted; the loop ends with that exception right after asking
    for it, and the third frame is never reformatted or encoded. *)
Lemma bad_frame_ends_encode_loop :
  let r := encode_frames picky_av [] []
             [sample_frame 0; sample_frame 1; sample_frame 2] (fresh ∅) in
  r.1 = Sig (Raise (OtherError "cannot reformat")) ∧
  calls r.2 =
    [AvReformat (sample_frame 0) 1280 720;
     AvEncode {| frame_width := 1280; frame_height := 720; frame_pts := 0 |};
     AvMux [[Byte.x00; Byte.x01]];
     AvReformat (sample_frame 1) 1280 720].
Proof. cbv zeta. repeat apply conj; vm_compute; reflexivity. Qed.

(** ** Releasing the frames *)

(** C6, on the code as it is. A recording with two frames is stopped:
    the handler raises NameError at line 124 ([io] is never imported),
    line 140 is not reached and the two frames stay in the session; no
    frame was encoded and nothing was uploaded. *)
Theorem stop_keeps_the_frames :
  let r := App (click BtnStop) (fresh recording_two_frames) in
  frame_buffer recording_two_frames = [sample_frame 0; sample_frame 1] ∧
  r.1 = Sig (Raise (NameError "io")) ∧
  frame_buffer (session_state r.2) = [sample_frame 0; sample_frame 1] ∧
  existsb is_encode_or_put (calls r.2) = false.
Proof. cbv zeta. repeat apply conj; vm_compute; reflexivity. Qed.

(** C10, on the code as it is. With a bucket that would refuse the PUT,
    stopping a recording with two frames raises NameError at line 124,
    before [upload_to_s3] is called: no error message is shown, the
    frames are not released and no rerun is asked for.  (The upload
    itself always returns to its caller: [upload_to_s3_returns].) *)
Theorem stop_handler_does_not_complete :
  let r := App (with_click (Some BtnStop) denied_env) (fresh recording_two_frames) in
  r.1 = Sig (Raise (NameError "io")) ∧
  frame_buffer (session_state r.2) = [sample_frame 0; sample_frame 1] ∧
  existsb is_error_message (calls r.2) = false ∧
  existsb is_encode_or_put (calls r.2) = false.
Proof. cbv zeta. repeat apply conj; vm_compute; reflexivity. Qed.

(** ** Configuration *)

Lemma load_secrets_run (env : Env) (w : World) :
  load_secrets env w =
  match secrets env !! "AWS_ACCESS_KEY_ID", secrets env !! "AWS_SECRET_ACCESS_KEY",
        secrets env !! "S3_BUCKET" with
  | Some a, Some k, Some b =>
      (Ret {| AWS_ACCESS_KEY_ID := a; AWS_SECRET_ACCESS_KEY := k;
              AWS_REGION := default "us-east-1" (secrets env !! "AWS_REGION");
              S3_BUCKET := b |}, w)
  | _, _, _ =>
      (Sig Halt, {| session_state := session_state w;
                    calls := calls w ++ [UiError missing_secrets_message] |})
  end.
Proof.
  unfold load_secrets, secrets_item. exec.
  destruct (secrets env !! "AWS_ACCESS_KEY_ID"); [|done].
  destruct (secrets env !! "AWS_SECRET_ACCESS_KEY"); [|done].
  by destruct (secrets env !! "S3_BUCKET").
Qed.

(** C7. When one of the three required secrets is missing, a run of the
    script shows the configuration error and halts: that message is its
    only call, the session is untouched, and nothing after line 17 runs.
    When all three are there, loading them succeeds silently, and the
    region is the one configured or us-east-1. *)
Theorem missing_secret_halts_the_script (globals : list string) (env : Env) (w : World) :
  if configured env
  then ∃ cfg, load_secrets env w = (Ret cfg, w) ∧
              secrets env !! "AWS_ACCESS_KEY_ID" = Some (AWS_ACCESS_KEY_ID cfg) ∧
              secrets env !! "AWS_SECRET_ACCESS_KEY" = Some (AWS_SECRET_ACCESS_KEY cfg) ∧
              secrets env !! "S3_BUCKET" = Some (S3_BUCKET cfg) ∧
              AWS_REGION cfg = default "us-east-1" (secrets env !! "AWS_REGION")
  else run_script globals env w =
       (Sig Halt, {| session_state := session_state w;
                     calls := calls w ++ [UiError missing_secrets_message] |}).
Proof.
  unfold configured, run_script. rewrite bind_run, load_secrets_run.
  destruct (secrets env !! "AWS_ACCESS_KEY_ID") as [a|];
    [|by rewrite bool_decide_eq_false_2 by (by intros [? ?])].
  destruct (secrets env !! "AWS_SECRET_ACCESS_KEY") as [k|];
    [|by rewrite (bool_decide_eq_false_2 (is_Some None)), andb_false_r by (by intros [? ?])].
  destruct (secrets env !! "S3_BUCKET") as [b|];
    [|by rewrite (bool_decide_eq_false_2 (is_Some None)), andb_false_r by (by intros [? ?])].
  rewrite !bool_decide_eq_true_2 by eauto. cbn [andb]. by eexists.
Qed.

(** Scenario D: the bucket name is missing. *)
Example missing_bucket_halts :
  App (with_click None
         {| secrets := delete "S3_BUCKET" sample_secrets; playing := true; clicked := None;
            time_metric := 0; time_start := 0; localtime := sample_time; uuid4 := 0;
            boto3_client := inr (); put_object := λ _ _ _, inr (); av := sample_av |})
      (fresh ∅) =
  (Sig Halt, {| session_state := ∅; calls := [UiError missing_secrets_message] |}).
Proof. by vm_compute. Qed.

(** ** Starting over *)

Lemma hoare_bind_ret {A B} (P : World → Prop) (R : A → World → Prop)
    (Q : Res B → World → Prop) (m : M A) (f : A → M B) :
  hoare P m (λ r w, ∃ a, r = Ret a ∧ R a w) →
  (∀ a, hoare (R a) (f a) Q) →
  hoare P (m ≫= f) Q.
Proof.
  intros Hm Hf. apply hoare_bind with (R := R); [|done].
  intros w Hw. destruct (Hm w Hw) as (a & -> & HR). done.
Qed.

Lemma silent_emit (s : gmap string Value) (e : Effect) :
  silent s (emit e).
Proof. intros w Hw. by exists (). Qed.

Lemma init_key_run (key : string) (v : Value) (w : World) :
  init_key key v w =
  (Ret (), {| session_state := with_default key v (session_state w); calls := calls w |}).
Proof.
  unfold init_key, with_default. exec. case_bool_decide as Hk.
  - destruct Hk as [x ->]. by destruct w.
  - apply eq_None_not_Some in Hk. by rewrite Hk.
Qed.

Lemma init_session_state_run (w : World) :
  init_session_state w =
  (Ret (), {| session_state := initialised (session_state w); calls := calls w |}).
Proof.
  unfold init_session_state, initialised.
  do 3 (rewrite bind_run, init_key_run; cbn [session_state calls]).
  by rewrite init_key_run.
Qed.

Lemma with_default_lookup (key j : string) (v : Value) (s : gmap string Value) :
  with_default key v s !! j =
  if decide (key = j) then Some (default v (s !! key)) else s !! j.
Proof.
  unfold with_default. destruct (s !! key) as [x|] eqn:Hx.
  - case_decide; [by subst|done].
  - rewrite lookup_insert. by case_decide.
Qed.

Lemma initialised_lookup (s : gmap string Value) (j : string) :
  initialised s !! j =
  if decide (j = "start_time") then Some (default VNone (s !! "start_time"))
  else if decide (j = "status") then Some (default (VStr "Ready") (s !! "status"))
  else if decide (j = "recorded_video") then Some (default VNone (s !! "recorded_video"))
  else if decide (j = "recording") then Some (default (VBool false) (s !! "recording"))
  else s !! j.
Proof.
  unfold initialised. rewrite !with_default_lookup.
  repeat case_decide; subst; try done.
Qed.

Lemma initialised_consistent (s : gmap string Value) :
  consistent s → consistent (initialised s).
Proof.
  intros Hs.
  pose proof (init_session_state_consistent (fresh s) Hs) as H.
  by rewrite init_session_state_run in H.
Qed.

(** In an initialised, consistent session the metric of lines 102-107
    can be shown. *)
Lemma silent_status_metric (env : Env) (s : gmap string Value) :
  consistent s → silent (initialised s) (status_metric env).
Proof.
  intros Hs w Hw. apply initialised_consistent in Hs as (Hr & _ & Ht).
  revert Hr Ht. unfold is_recording, status_is, status_metric. exec. rewrite Hw.
  destruct (initialised s !! "status") as [st|] eqn:Hst.
  2:{ rewrite initialised_lookup in Hst. by repeat case_decide. }
  destruct (eq_str st "Recording"); intros Hr Ht.
  - destruct (Ht Hr) as [t Hstart]. rewrite Hw, Hstart. cbn [as_number].
    exists (). by rewrite <- Hw.
  - rewrite Hw, Hst. exists (). by rewrite <- Hw.
Qed.

(** No Start or Stop click: lines 109-142 draw a button at most. *)
Lemma silent_controls (globals : list string) (env : Env) (cfg : Config)
    (s : gmap string Value) :
  clicked env ≠ Some BtnStart → clicked env ≠ Some BtnStop →
  silent (initialised s) (controls globals env cfg).
Proof.
  intros H1 H2 w Hw. unfold controls, st_button. exec.
  rewrite !bool_decide_eq_false_2 by done.
  destruct (initialised s !! "recording") as [r|] eqn:Hr.
  2:{ rewrite initialised_lookup in Hr. by repeat case_decide. }
  rewrite <- Hw in Hr.
  destruct (playing env), (truthy r) eqn:Htr;
    repeat first [rewrite Hr | rewrite Htr | progress cbn [negb session_state calls]];
    by exists ().
Qed.

Lemma forgotten_initialised (s : gmap string Value) :
  forgotten (initialised s) = forgotten s.
Proof.
  apply map_eq. intros j. rewrite !forgotten_lookup.
  case_bool_decide as Hj; [done|]. rewrite initialised_lookup.
  repeat case_decide; subst; try done; exfalso; apply Hj; unfold session_keys; set_solver.
Qed.

(** A run of a configured script, up to the New Recording button. *)
Lemma run_script_to_new_recording (globals : list string) (env : Env)
    (s : gmap string Value) (Q : Res unit → World → Prop) :
  configured env = true →
  clicked env ≠ Some BtnStart → clicked env ≠ Some BtnStop →
  consistent s →
  hoare (λ w, session_state w = initialised s)
        (new_recording env ;; emit (UiMarkdown "---") ;; emit (UiInfo setup_info)) Q →
  hoare (λ w, session_state w = s) (run_script globals env) Q.
Proof.
  intros Hcfg H1 H2 Hs Hrest. unfold run_script.
  apply hoare_bind_ret with (R := λ _ w, session_state w = s).
  { intros w Hw. rewrite load_secrets_run. revert Hcfg. unfold configured.
    destruct (secrets env !! "AWS_ACCESS_KEY_ID"); [|done].
    destruct (secrets env !! "AWS_SECRET_ACCESS_KEY"); [|done].
    destruct (secrets env !! "S3_BUCKET"); [|done]. eauto. }
  intros cfg.
  apply hoare_bind_ret with (R := λ _ w, session_state w = s); [apply silent_emit|]. intros _.
  apply hoare_bind_ret with (R := λ _ w, session_state w = s); [apply silent_emit|]. intros _.
  apply hoare_bind_ret with (R := λ _ w, session_state w = initialised s).
  { intros w Hw. rewrite init_session_state_run. exists (). by rewrite Hw. }
  intros _.
  apply hoare_bind_ret with (R := λ _ w, session_state w = initialised s);
    [apply silent_emit|]. intros _.
  apply hoare_bind_ret with (R := λ _ w, session_state w = initialised s);
    [apply silent_emit|]. intros _.
  apply hoare_bind_ret with (R := λ _ w, session_state w = initialised s);
    [by apply silent_status_metric|]. intros _.
  apply hoare_bind_ret with (R := λ _ w, session_state w = initialised s);
    [by apply silent_controls|]. intros _.
  done.
Qed.

(** The run a New Recording click causes forgets the five keys and asks
    for a rerun. *)
Lemma new_click_run (globals : list string) (env : Env) (w : World) :
  configured env = true → clicked env = Some BtnNew → consistent (session_state w) →
  (run_script globals env w).1 = Sig Rerun ∧
  session_state (run_script globals env w).2 = forgotten (session_state w).
Proof.
  intros Hcfg Hc Hs.
  apply (run_script_to_new_recording globals env (session_state w)
           (λ r w', r = Sig Rerun ∧ session_state w' = forgotten (session_state w)));
    try done; try (rewrite Hc; done).
  intros w' Hw'. rewrite bind_run, new_recording_run, Hc.
  rewrite bool_decide_eq_true_2 by done. cbn [fst snd session_state].
  by rewrite Hw', forgotten_initialised.
Qed.

(** A run no click caused initialises the session and completes. *)
Lemma no_click_run (globals : list string) (env : Env) (w : World) :
  configured env = true → clicked env = None → consistent (session_state w) →
  (run_script globals env w).1 = Ret () ∧
  session_state (run_script globals env w).2 = initialised (session_state w).
Proof.
  intros Hcfg Hc Hs.
  apply (run_script_to_new_recording globals env (session_state w)
           (λ r w', r = Ret () ∧ session_state w' = initialised (session_state w)));
    try done; try (rewrite Hc; done).
  intros w' Hw'. rewrite bind_run, new_recording_run, Hc.
  by rewrite bool_decide_eq_false_2 by done.
Qed.

(** A New Recording click and the rerun it asks for. *)
Lemma reset_run (globals : list string) (env env' : Env) (w : World) :
  configured env = true → configured env' = true → consistent (session_state w) →
  let r := interact globals (with_click (Some BtnNew) env) env' w in
  r.1 = Ret () ∧ session_state r.2 = initialised (forgotten (session_state w)).
Proof.
  intros Hcfg Hcfg' Hs. unfold interact.
  destruct (new_click_run globals (with_click (Some BtnNew) env) w) as [H1 H2]; try done.
  destruct (run_script globals (with_click (Some BtnNew) env) w) as [r1 w1].
  cbn [fst snd] in H1, H2. subst r1. cbv zeta.
  destruct (no_click_run globals (with_click None env') w1) as [H3 H4]; try done.
  { rewrite H2. apply forgotten_consistent. }
  split; [done|]. by rewrite H4, H2.
Qed.

Lemma forgotten_idem (s : gmap string Value) : forgotten (forgotten s) = forgotten s.
Proof.
  apply map_eq. intros j. rewrite !forgotten_lookup. by case_bool_decide.
Qed.

Lemma initialised_forgotten_idem (s : gmap string Value) :
  initialised (forgotten (initialised (forgotten s))) = initialised (forgotten s).
Proof. by rewrite forgotten_initialised, forgotten_idem. Qed.

(** C8. From every session the script and the transport can produce, a
    New Recording click (with the rerun it asks for) completes and
    leaves the recorder ready: status Ready, recording flag off, no
    frame buffer, start time and stored video cleared.  A second click
    right after leaves exactly the same session. *)
Theorem reset_is_idempotent (events : list Event) (env1 env1' env2 env2' : Env) :
  configured env1 = true → configured env1' = true →
  configured env2 = true → configured env2' = true →
  let once := interact module_globals (with_click (Some BtnNew) env1) env1'
                (fresh (replay events)) in
  let twice := interact module_globals (with_click (Some BtnNew) env2) env2'
                 (fresh (session_state once.2)) in
  once.1 = Ret () ∧ twice.1 = Ret () ∧
  session_state twice.2 = session_state once.2 ∧
  session_state once.2 !! "status" = Some (VStr "Ready") ∧
  session_state once.2 !! "recording" = Some (VBool false) ∧
  session_state once.2 !! "frames" = None ∧
  session_state once.2 !! "start_time" = Some VNone ∧
  session_state once.2 !! "recorded_video" = Some VNone.
Proof.
  intros H1 H1' H2 H2' once twice.
  destruct (reset_run module_globals env1 env1' (fresh (replay events)) H1 H1'
              (replay_consistent events)) as [Ho Hos].
  fold once in Ho, Hos. cbn [fresh session_state] in Hos.
  assert (consistent (session_state once.2)) as Hcons.
  { rewrite Hos. apply initialised_consistent, forgotten_consistent. }
  destruct (reset_run module_globals env2 env2' (fresh (session_state once.2)) H2 H2' Hcons)
    as [Ht Hts].
  fold twice in Ht, Hts. cbn [fresh session_state] in Hts.
  split; [done|]. split; [done|].
  split; [by rewrite Hts, Hos, initialised_forgotten_idem|].
  rewrite Hos, !initialised_lookup, !forgotten_lookup. by repeat split.
Qed.

Lemma reset_is_idempotent_witness :
  let once := interact module_globals (click BtnNew) sample_env (fresh recording_two_frames) in
  let twice := interact module_globals (click BtnNew) sample_env (fresh (session_state once.2)) in
  configured sample_env = true ∧
  once.1 = Ret () ∧ twice.1 = Ret () ∧
  session_state twice.2 = session_state once.2 ∧
  session_state once.2 !! "status" = Some (VStr "Ready") ∧
  session_state once.2 !! "recording" = Some (VBool false) ∧
  session_state once.2 !! "frames" = None ∧
  session_state once.2 !! "start_time" = Some VNone ∧
  session_state once.2 !! "recorded_video" = Some VNone.
Proof.
  split; [reflexivity|].
  apply (reset_is_idempotent
           [ScriptRun sample_env; ScriptRun (click BtnStart); ScriptRun sample_env;
            FrameArrives (sample_frame 0); FrameArrives (sample_frame 1)]
           sample_env sample_env sample_env sample_env); reflexivity.
Defined.

(** ** Object keys *)

Lemma pad2_two_digits (n : Z) : 0 ≤ n ≤ 99 → two_digits (pad2 n) = true.
Proof.
  intros Hn.
  assert (forallb (λ k, two_digits (pad2 k)) (seqZ 0 100) = true) as H by (by vm_compute).
  rewrite forallb_forall in H. apply H. apply list_elem_of_In, elem_of_seqZ. lia.
Qed.

Lemma pretty_N_char_is_digit (d : N) : is_digit (pretty_N_char d) = true.
Proof. unfold pretty_N_char. by repeat case_match. Qed.

(** A number from 1000 to 9999 prints as four digits: four steps of the
    printer, one per digit. *)
Lemma year_four_digits (n : Z) : 1000 ≤ n ≤ 9999 → four_digits (pretty n) = true.
Proof.
  intros Hn. destruct n as [|p|p]; [lia| |lia].
  unfold pretty, pretty_Z, pretty, pretty_positive, pretty, pretty_N.
  case_decide; [done|].
  assert (1000 ≤ N.pos p ≤ 9999)%N as Hp by lia.
  generalize dependent (N.pos p). intros x _ Hx.
  assert (x / 10 / 10 / 10 / 10 = 0)%N as Hend.
  { rewrite !N.Div0.div_div. apply N.div_small. lia. }
  assert (0 < x / 10 / 10 / 10)%N as H3.
  { rewrite !N.Div0.div_div. apply N.div_str_pos. lia. }
  assert (0 < x / 10 / 10)%N as H2.
  { rewrite !N.Div0.div_div. apply N.div_str_pos. lia. }
  assert (0 < x / 10)%N as H1 by (apply N.div_str_pos; lia).
  rewrite (pretty_N_go_step x) by lia.
  rewrite (pretty_N_go_step (x / 10)) by done.
  rewrite (pretty_N_go_step (x / 10 / 10)) by done.
  rewrite (pretty_N_go_step (x / 10 / 10 / 10)) by done.
  rewrite Hend, pretty_N_go_0. cbn [four_digits].
  by rewrite !pretty_N_char_is_digit.
Qed.

Lemma uuid_prefix_unfold (u : Z) :
  uuid_prefix u =
  string_of_list_ascii (map (λ k, hex_digit (nibble u k)) [31; 30; 29; 28; 27; 26; 25; 24]).
Proof. unfold uuid_prefix, uuid_hex. by rewrite firstn_map. Qed.

Lemma nibble_range (u k : Z) : 0 ≤ nibble u k < 16.
Proof.
  unfold nibble. change 15 with (Z.ones 4). rewrite Z.land_ones by lia.
  apply Z.mod_pos_bound. lia.
Qed.

Lemma hex_digit_is_hex (d : Z) : 0 ≤ d < 16 → is_hex_digit (hex_digit d) = true.
Proof.
  intros Hd.
  assert (forallb (λ k, is_hex_digit (hex_digit k)) (seqZ 0 16) = true) as H by (by vm_compute).
  rewrite forallb_forall in H. apply H. apply list_elem_of_In, elem_of_seqZ. lia.
Qed.

Lemma file_key_follows_convention (tm : struct_time) (u : Z) :
  valid_time tm → key_convention (file_key tm u) = true.
Proof.
  intros (Hy & Hm & Hd & Hh & Hmi & Hs).
  pose proof (year_four_digits (tm_year tm) Hy) as Hy'.
  pose proof (pad2_two_digits (tm_mon tm) ltac:(lia)) as Hm'.
  pose proof (pad2_two_digits (tm_mday tm) ltac:(lia)) as Hd'.
  pose proof (pad2_two_digits (tm_hour tm) ltac:(lia)) as Hh'.
  pose proof (pad2_two_digits (tm_min tm) ltac:(lia)) as Hmi'.
  pose proof (pad2_two_digits (tm_sec tm) ltac:(lia)) as Hs'.
  unfold file_key, strftime. rewrite uuid_prefix_unfold.
  pose proof (hex_digit_is_hex _ (nibble_range u 31)) as H31.
  pose proof (hex_digit_is_hex _ (nibble_range u 30)) as H30.
  pose proof (hex_digit_is_hex _ (nibble_range u 29)) as H29.
  pose proof (hex_digit_is_hex _ (nibble_range u 28)) as H28.
  pose proof (hex_digit_is_hex _ (nibble_range u 27)) as H27.
  pose proof (hex_digit_is_hex _ (nibble_range u 26)) as H26.
  pose proof (hex_digit_is_hex _ (nibble_range u 25)) as H25.
  pose proof (hex_digit_is_hex _ (nibble_range u 24)) as H24.
  destruct (pretty (tm_year tm)) as [|y1 [|y2 [|y3 [|y4 [|]]]]]; try discriminate Hy'.
  destruct (pad2 (tm_mon tm)) as [|m1 [|m2 [|]]]; try discriminate Hm'.
  destruct (pad2 (tm_mday tm)) as [|d1 [|d2 [|]]]; try discriminate Hd'.
  destruct (pad2 (tm_hour tm)) as [|h1 [|h2 [|]]]; try discriminate Hh'.
  destruct (pad2 (tm_min tm)) as [|i1 [|i2 [|]]]; try discriminate Hmi'.
  destruct (pad2 (tm_sec tm)) as [|s1 [|s2 [|]]]; try discriminate Hs'.
  cbn [four_digits two_digits] in *.
  repeat match goal with H : _ && _ = true |- _ => apply andb_true_iff in H as [? ?] end.
  cbv -[is_digit is_hex_digit hex_digit nibble].
  repeat match goal with H : ?x = true |- context [?x] =>
    rewrite H; cbv -[is_digit is_hex_digit hex_digit nibble] end.
  reflexivity.
Qed.

Lemma nibble_testbit (u k j : Z) :
  0 ≤ j → Z.testbit (nibble u k) j = Z.testbit u (4 * k + j) && (j <? 4).
Proof.
  intros Hj. unfold nibble. rewrite Z.land_spec, Z.shiftr_spec by done.
  change 15 with (Z.ones 4). rewrite Z.testbit_ones_nonneg by lia.
  by rewrite (Z.add_comm j).
Qed.

Lemma time_low_testbit (u j : Z) :
  0 ≤ j → Z.testbit (time_low u) j = Z.testbit u (96 + j) && (j <? 32).
Proof.
  intros Hj. unfold time_low. rewrite Z.land_spec, Z.shiftr_spec by done.
  rewrite Z.testbit_ones_nonneg by lia. by rewrite (Z.add_comm j).
Qed.

(** The eight digits of the key are the digits of [time_low]. *)
Lemma nibbles_time_low (u u' : Z) :
  (∀ k, 24 ≤ k ≤ 31 → nibble u k = nibble u' k) ↔ time_low u = time_low u'.
Proof.
  split.
  - intros H. apply Z.bits_inj'. intros j Hj. rewrite !time_low_testbit by done.
    destruct (Z.ltb_spec j 32) as [Hlt|]; [|by rewrite !andb_false_r].
    rewrite !andb_true_r.
    pose proof (Z.div_mod j 4 ltac:(lia)) as Hdm.
    pose proof (Z.mod_pos_bound j 4 ltac:(lia)) as Hmod.
    assert (24 ≤ 24 + j / 4 ≤ 31) as Hk by lia.
    pose proof (f_equal (λ z, Z.testbit z (j mod 4)) (H _ Hk)) as Hbit. cbn beta in Hbit.
    rewrite !nibble_testbit in Hbit by lia.
    replace (4 * (24 + j / 4) + j mod 4) with (96 + j) in Hbit by lia.
    destruct (Z.ltb_spec (j mod 4) 4); [|lia]. by rewrite !andb_true_r in Hbit.
  - intros H k Hk. apply Z.bits_inj'. intros j Hj. rewrite !nibble_testbit by done.
    destruct (Z.ltb_spec j 4) as [Hlt|]; [|by rewrite !andb_false_r].
    rewrite !andb_true_r.
    pose proof (f_equal (λ z, Z.testbit z (4 * k + j - 96)) H) as Hbit. cbn beta in Hbit.
    rewrite !time_low_testbit in Hbit by lia.
    replace (96 + (4 * k + j - 96)) with (4 * k + j) in Hbit by lia.
    destruct (Z.ltb_spec (4 * k + j - 96) 32); [|lia]. by rewrite !andb_true_r in Hbit.
Qed.

Lemma hex_digit_code (d : Z) :
  0 ≤ d < 16 →
  Z.of_nat (nat_of_ascii (hex_digit d)) = if d <? 10 then 48 + d else 87 + d.
Proof.
  intros Hd. unfold hex_digit.
  destruct (d <? 10); rewrite nat_ascii_embedding by lia; lia.
Qed.

Lemma hex_digit_inj (a b : Z) :
  0 ≤ a < 16 → 0 ≤ b < 16 → hex_digit a = hex_digit b → a = b.
Proof.
  intros Ha Hb H. apply (f_equal (λ c, Z.of_nat (nat_of_ascii c))) in H.
  rewrite !hex_digit_code in H by done.
  destruct (Z.ltb_spec a 10), (Z.ltb_spec b 10); lia.
Qed.

Lemma uuid_prefix_time_low (u u' : Z) :
  uuid_prefix u = uuid_prefix u' ↔ time_low u = time_low u'.
Proof.
  rewrite <- nibbles_time_low, !uuid_prefix_unfold. split.
  - intros H k Hk. cbn [map string_of_list_ascii] in H.
    injection H as H31 H30 H29 H28 H27 H26 H25 H24.
    assert (k = 24 ∨ k = 25 ∨ k = 26 ∨ k = 27 ∨ k = 28 ∨ k = 29 ∨ k = 30 ∨ k = 31)
      as Hcases by lia.
    destruct_or!; subst k; by apply hex_digit_inj; try apply nibble_range.
  - intros H. cbn [map]. by rewrite !H by lia.
Qed.

Lemma append_inj_l (s a b : string) : s +:+ a = s +:+ b → a = b.
Proof.
  induction s as [|c s IH]; [done|]. cbn [String.append].
  intros [= H]. by apply IH.
Qed.

Lemma file_key_inj (tm : struct_time) (u u' : Z) :
  file_key tm u = file_key tm u' ↔ time_low u = time_low u'.
Proof.
  rewrite <- uuid_prefix_time_low. unfold file_key. split.
  - intros H. do 3 apply append_inj_l in H. revert H.
    rewrite !uuid_prefix_unfold. cbn [map string_of_list_ascii String.append].
    intros [= -> -> -> -> -> -> -> ->]. done.
  - by intros ->.
Qed.

(** C9. With a clock that shows a year of four digits, the key the
    upload generates reads recordings/webcam-, eight digits, a dash, six
    digits, a dash, eight hexadecimal characters, and the extension
    .mkv; it is the key of every PUT the upload issues; and two keys of
    the same second are equal only when the leading 32 bits of their
    UUIDs are: among the uploads of one second there are 2^32 different
    keys. *)
Theorem object_key_follows_convention
    (env : Env) (cfg : Config) (video_bytes : list Byte.byte) (w : World) :
  valid_time (localtime env) →
  let key := file_key (localtime env) (uuid4 env) in
  key_convention key = true ∧
  (∀ bucket k body content_type,
     S3PutObject bucket k body content_type ∈ calls (upload_to_s3 env cfg video_bytes w).2 →
     S3PutObject bucket k body content_type ∈ calls w ∨ k = key) ∧
  (∀ u, file_key (localtime env) u = key ↔ time_low u = time_low (uuid4 env)).
Proof.
  intros Htm key. split; [by apply file_key_follows_convention|].
  split; [|intros u; apply file_key_inj].
  intros bucket k body content_type. rewrite upload_to_s3_run. cbv zeta.
  destruct (boto3_client env) as [e|[]]; [|destruct (put_object env _ _ _) as [e|[]]];
    cbn [snd calls]; unfold upload_calls; intros [Hin|Hin]%elem_of_app; try by left.
  all: right; repeat (apply elem_of_cons in Hin as [Hin|Hin]; [by simplify_eq|]).
  all: by apply elem_of_nil in Hin.
Qed.

Lemma object_key_follows_convention_witness :
  valid_time sample_time ∧
  key_convention (file_key sample_time (uuid4 sample_env)) = true ∧
  file_key sample_time (uuid4 sample_env) = "recordings/webcam-20240309-140500-9f86d081.mkv".
Proof.
  split; [unfold valid_time, sample_time; cbn; lia|].
  split; [|by vm_compute].
  apply (object_key_follows_convention sample_env sample_cfg [] (fresh ∅)).
  unfold valid_time, sample_time; cbn; lia.
Defined.

(** ** From the Stop click to its handler *)

(** The stop handler never falls through: it ends with the rerun request
    or with an exception of the flush. *)
Lemma stop_and_upload_signals (globals : list string) (env : Env) (cfg : Config) (w : World) :
  ∃ sg, (stop_and_upload globals env cfg w).1 = Sig sg.
Proof.
  rewrite stop_and_upload_run. cbv zeta.
  destruct (frames_nonempty (session_state w)); [|by eexists].
  destruct (flush _ _ _ _) as [[[]|sg] w2]; by eexists.
Qed.

(** With a Stop click in a recording session, lines 109-142 draw the
    Stop button and run the handler. *)
Lemma controls_stop_click (globals : list string) (env : Env) (cfg : Config) (w : World) :
  clicked env = Some BtnStop → is_recording (session_state w) = true →
  controls globals env cfg w =
  stop_and_upload globals env cfg
    {| session_state := session_state w;
       calls := calls w ++ [UiButton "⏹️ **Stop & Upload**"] |}.
Proof.
  intros Hc. unfold is_recording, controls, st_button. exec. rewrite Hc.
  change (bool_decide (Some BtnStop = Some BtnStop)) with true.
  destruct (session_state w !! "recording") as [r|] eqn:Hr; [|done]. intros Ht.
  destruct (playing env);
    repeat first [rewrite Hr | rewrite Ht | progress cbn [negb session_state calls]]; done.
Qed.

Lemma is_recording_initialised (s : gmap string Value) :
  is_recording (initialised s) = is_recording s.
Proof.
  unfold is_recording. rewrite initialised_lookup. repeat case_decide; try done.
  by destruct (s !! "recording").
Qed.

(** A Stop click in a recording session reaches the handler: the run is
    the handler's, on the initialised session. *)
Lemma stop_click_runs_handler (globals : list string) (env : Env) (w : World) :
  configured env = true → clicked env = Some BtnStop →
  consistent (session_state w) → is_recording (session_state w) = true →
  ∃ cfg w1,
    load_secrets env w = (Ret cfg, w) ∧
    session_state w1 = initialised (session_state w) ∧
    run_script globals env w = stop_and_upload globals env cfg w1.
Proof.
  intros Hcfg Hc Hs Hrec. unfold run_script. rewrite bind_run, load_secrets_run.
  revert Hcfg. unfold configured.
  destruct (secrets env !! "AWS_ACCESS_KEY_ID") as [a|]; [|done].
  destruct (secrets env !! "AWS_SECRET_ACCESS_KEY") as [k|]; [|done].
  destruct (secrets env !! "S3_BUCKET") as [b|]; [|done]. intros _.
  set (cfg := {| AWS_ACCESS_KEY_ID := a |}).
  do 2 (rewrite bind_run; cbn [emit]).
  rewrite bind_run, init_session_state_run. cbn [session_state calls].
  do 2 (rewrite bind_run; cbn [emit session_state calls]).
  rewrite bind_run.
  match goal with |- context [status_metric env ?x] => set (w0 := x) end.
  pose proof (silent_status_metric env (session_state w) Hs w0 eq_refl) as Hm.
  destruct (status_metric env w0) as [r w1].
  cbv beta in Hm. cbn [fst snd] in Hm. destruct Hm as ([] & -> & Hses).
  rewrite bind_run, controls_stop_click; [|done|].
  2:{ by rewrite Hses, is_recording_initialised. }
  exists cfg, {| session_state := session_state w1;
                 calls := calls w1 ++ [UiButton "⏹️ **Stop & Upload**"] |}.
  split; [done|]. split; [done|].
  destruct (stop_and_upload_signals globals env cfg
              {| session_state := session_state w1;
                 calls := calls w1 ++ [UiButton "⏹️ **Stop & Upload**"] |}) as [sg Hsg].
  destruct (stop_and_upload _ _ _ _) as [r w2]. cbn [fst] in Hsg. by subst r.
Qed.

(** Scenario A, up to the stop: a recording is started and three frames
    are delivered; the buffer holds them in arrival order. *)
Example three_frames_in_arrival_order :
  frame_buffer
    (replay [ScriptRun sample_env; ScriptRun (click BtnStart); ScriptRun sample_env;
             FrameArrives (sample_frame 0); FrameArrives (sample_frame 1);
             FrameArrives (sample_frame 2)]) =
  [sample_frame 0; sample_frame 1; sample_frame 2].
Proof. by vm_compute. Qed.

(** * Further properties of the blocks *)

(** ** The upload, whatever boto3 answers *)

(** X1. [upload_to_s3] always returns to its caller.  It asks for the
    PUT exactly when the client could be made, once, under the key of
    line 55, and never retries.  When neither call raised, the only
    change to the session is the uploaded note under [status], the
    success message is shown and no error message is.  When one of them
    raised, the session is as it was, no success message is shown, and
    the one error message, the last call, is that of the [except] clause
    that takes the exception raised. *)
Theorem upload_returns_and_reports
    (env : Env) (cfg : Config) (video_bytes : list Byte.byte) (w : World) :
  let r := upload_to_s3 env cfg video_bytes w in
  let key := file_key (localtime env) (uuid4 env) in
  r.1 = Ret () ∧
  ∃ l, calls r.2 = calls w ++ l ∧
       List.filter is_put l =
         match boto3_client env with
         | inl _ => []
         | inr _ => [S3PutObject (S3_BUCKET cfg) key video_bytes "video/x-matroska"]
         end ∧
       match upload_answer env cfg video_bytes with
       | inr _ =>
           session_state r.2 =
             <["status" := VStr (uploaded_status video_bytes)]> (session_state w) ∧
           List.filter is_error_message l = [] ∧
           List.filter is_success_message l =
             [UiSuccess ("**Video saved**: [" +:+ key +:+ "](" +:+ s3_url cfg key +:+ ")")]
       | inl e =>
           session_state r.2 = session_state w ∧
           List.filter is_error_message l = [UiError (upload_error_message cfg e)] ∧
           last l = Some (UiError (upload_error_message cfg e)) ∧
           List.filter is_success_message l = []
       end.
Proof.
  intros r key. subst r key. rewrite upload_to_s3_run. unfold upload_answer. cbv zeta.
  destruct (boto3_client env) as [e|[]]; [|destruct (put_object env _ _ _) as [e|[]]].
  - split; [done|]. eexists. split; [done|]. by cbn.
  - split; [done|]. eexists. split; [done|]. by cbn.
  - split; [done|]. eexists. split; [done|]. by cbn.
Qed.

(** ** The frame callback, frame after frame *)

(** Frame after frame: what [deliver] does to a session whose [frames],
    if there, is a list. *)
Lemma deliver_run (frames : list VideoFrame) (w : World) :
  frames_typed (session_state w) →
  calls (deliver frames w) = calls w ∧
  (∀ key, key ≠ "frames" →
          session_state (deliver frames w) !! key = session_state w !! key) ∧
  frame_buffer (session_state (deliver frames w)) =
    if is_recording (session_state w)
    then frame_buffer (session_state w) ++ frames
    else frame_buffer (session_state w).
Proof.
  revert w. induction frames as [|frame frames IH]; intros w Hty.
  - cbn. split; [done|]. split; [done|].
    destruct (is_recording _); by rewrite ?app_nil_r.
  - cbn [deliver foldl]. fold (deliver frames (video_frame_callback frame w).2).
    pose proof (video_frame_callback_run frame w) as Hrun.
    unfold is_recording in *.
    destruct (session_state w !! "recording") as [r|] eqn:Hr.
    2:{ rewrite Hrun. cbn [snd]. specialize (IH w Hty). by rewrite Hr in IH. }
    destruct (truthy r) eqn:Ht.
    2:{ rewrite Hrun. cbn [snd]. specialize (IH w Hty). by rewrite Hr, Ht in IH. }
    assert (∃ w1, (video_frame_callback frame w).2 = w1 ∧ calls w1 = calls w ∧
              session_state w1 =
                <["frames" := VFrames (frame_buffer (session_state w) ++ [frame])]>
                  (session_state w)) as (w1 & Hw1 & Hc1 & Hs1).
    { rewrite Hrun. unfold frame_buffer.
      destruct Hty as [Hf|[fs Hf]]; rewrite Hf; by eexists. }
    rewrite Hw1.
    destruct (IH w1) as (Hc & Hk & Hb).
    { rewrite Hs1. apply frames_typed_frames. }
    rewrite Hs1 in Hk, Hb. rewrite lookup_insert_ne, Hr, Ht in Hb by done.
    rewrite frame_buffer_insert in Hb.
    split; [by rewrite Hc|]. split.
    + intros key Hkey. rewrite Hk by done. by rewrite lookup_insert_ne.
    + by rewrite Hb, <- app_assoc.
Qed.

(** X2. While the recorder is recording, the frames the transport
    delivers are appended to the buffer in arrival order, none lost and
    none repeated; no other key of the session changes and nothing is
    called.  While it is not recording, any number of deliveries leaves
    the buffer as it is. *)
Theorem frames_buffered_in_arrival_order (frames : list VideoFrame) (w : World) :
  frames_typed (session_state w) →
  let w' := deliver frames w in
  calls w' = calls w ∧
  (∀ key, key ≠ "frames" → session_state w' !! key = session_state w !! key) ∧
  frame_buffer (session_state w') =
    if is_recording (session_state w)
    then frame_buffer (session_state w) ++ frames
    else frame_buffer (session_state w).
Proof. intros Hty w'. subst w'. by apply deliver_run. Qed.

Lemma frames_buffered_in_arrival_order_witness :
  let w := fresh recording_no_frames in
  let w' := deliver [sample_frame 0; sample_frame 1; sample_frame 2] w in
  frames_typed (session_state w) ∧
  calls w' = calls w ∧
  (∀ key, key ≠ "frames" → session_state w' !! key = session_state w !! key) ∧
  frame_buffer (session_state w') =
    if is_recording (session_state w)
    then frame_buffer (session_state w) ++ [sample_frame 0; sample_frame 1; sample_frame 2]
    else frame_buffer (session_state w).
Proof.
  assert (frames_typed recording_no_frames) as H by (right; exists []; by vm_compute).
  split; [exact H|].
  exact (frames_buffered_in_arrival_order [sample_frame 0; sample_frame 1; sample_frame 2]
           (fresh recording_no_frames) H).
Defined.

(** ** Initialising the session *)

Lemma initialised_union (s : gmap string Value) : initialised s = s ∪ init_defaults.
Proof.
  apply map_eq. intros j. rewrite initialised_lookup, lookup_union.
  unfold init_defaults.
  repeat case_decide; subst; rewrite ?lookup_insert_ne by done;
    rewrite ?lookup_insert_eq, ?lookup_empty; by destruct (s !! _).
Qed.

(** X3. Lines 23-30 only fill in what is missing: the session afterwards
    is the session before, completed by the four defaults; a key that
    was there keeps its value, whatever it is, [frames] is not created,
    nothing is called and nothing is raised.  Running the block again
    changes nothing. *)
Theorem init_fills_missing_keys_only (w : World) :
  let r := init_session_state w in
  r.1 = Ret () ∧ calls r.2 = calls w ∧
  session_state r.2 = session_state w ∪ init_defaults ∧
  session_state (init_session_state r.2).2 = session_state r.2.
Proof.
  intros r. subst r. rewrite !init_session_state_run. cbn [fst snd session_state calls].
  split; [done|]. split; [done|]. split; [by rewrite initialised_union|].
  rewrite !initialised_union. apply map_eq. intros j. rewrite !lookup_union.
  by destruct (session_state w !! j), (init_defaults !! j).
Qed.

(** ** The New Recording button *)

(** X4. The New Recording handler never raises, whatever the session
    holds: a key that is missing is skipped.  After a click the five
    keys of the recorder are gone, every other key of the session is as
    it was, and a rerun is requested; without a click the session is
    untouched.  Either way the button is the only call. *)
Theorem new_recording_forgets_the_five_keys (env : Env) (w : World) :
  let r := new_recording env w in
  calls r.2 = calls w ++ [UiButton "📹 **New Recording**"] ∧
  if bool_decide (clicked env = Some BtnNew)
  then r.1 = Sig Rerun ∧
       ∀ key, session_state r.2 !! key =
              if bool_decide (key ∈ session_keys) then None else session_state w !! key
  else r.1 = Ret () ∧ session_state r.2 = session_state w.
Proof.
  intros r. subst r. rewrite new_recording_run.
  case_bool_decide; cbn [fst snd session_state calls]; [|done].
  split; [done|]. split; [done|]. apply forgotten_lookup.
Qed.

(** ** The encode loop, call by call *)

Lemma encoder_answers_cons (lib : AvLib) (fed : list VideoFrame) (fc : VideoFrame)
    (converted : list VideoFrame) (packets : list Packet) (answers : list (list Packet)) :
  encoder_answers lib fed (fc :: converted) (packets :: answers) ↔
  av_encode lib fed fc = inr packets ∧ encoder_answers lib (fed ++ [fc]) converted answers.
Proof.
  unfold encoder_answers. split.
  - intros H. split.
    + specialize (H 0%nat fc packets eq_refl eq_refl). by rewrite app_nil_r in H.
    + intros i fc' packets' Hc Ha. specialize (H (S i) fc' packets' Hc Ha).
      cbn [take] in H. by rewrite <- app_assoc.
  - intros [H0 H] [|i] fc' packets' Hc Ha.
    + cbn in Hc, Ha. simplify_eq. by rewrite app_nil_r.
    + cbn in Hc, Ha. specialize (H i fc' packets' Hc Ha).
      cbn [take]. by rewrite <- app_assoc in H.
Qed.

(** The loop completes exactly when every frame can be reformatted, the
    encoder answers each reformatted frame, and each answer that holds
    packets can be muxed; then its calls and its result are these. *)
Lemma encode_frames_completes (lib : AvLib) (frames : list VideoFrame) :
  ∀ (fed : list VideoFrame) (muxed muxed' : list Packet) (w w' : World),
  encode_frames lib fed muxed frames w = (Ret muxed', w') ↔
  ∃ converted answers,
    Forall2 (λ frame fc, av_reformat lib frame = inr fc) frames converted ∧
    length answers = length frames ∧
    encoder_answers lib fed converted answers ∧
    Forall (λ packets, packets ≠ [] → av_mux lib packets = inr ()) answers ∧
    muxed' = muxed ++ concat answers ∧
    w' = {| session_state := session_state w;
            calls := calls w ++ loop_calls frames converted answers |}.
Proof.
  induction frames as [|frame rest IH]; intros fed muxed muxed' w w'.
  - cbn [encode_frames]. rewrite ret_run. split.
    + intros [= <- <-]. exists [], []. cbn. rewrite !app_nil_r.
      split; [constructor|]. split; [done|]. split; [by intros [|?] ? ? ?|].
      split; [constructor|]. split; [done|]. by destruct w.
    + intros (converted & answers & HF & Hlen & _ & _ & -> & ->).
      destruct answers; [|done]. cbn. rewrite !app_nil_r. by destruct w.
  - cbn [encode_frames]. exec.
    destruct (av_reformat lib frame) as [exc|fc] eqn:Hre.
    { split; [done|]. intros (converted & answers & HF & _).
      inversion HF; congruence. }
    tidy. destruct (av_encode lib fed fc) as [exc|packet] eqn:Hen.
    { split; [done|]. intros (converted & answers & HF & Hlen & Henc & _).
      inversion HF as [|? fc' ? cs Hfc ?]; subst.
      rewrite Hre in Hfc; injection Hfc as <-.
      destruct answers as [|pk ps]; [done|].
      apply encoder_answers_cons in Henc as [Henc _]. congruence. }
    tidy. destruct packet as [|p packet].
    + etrans; [apply IH|]. cbn [session_state calls]. split.
      * intros (cs & ps & HF & Hlen & Henc & Hmux & -> & ->).
        exists (fc :: cs), ([] :: ps).
        split; [by constructor|]. split; [by cbn; rewrite Hlen|].
        split; [by apply encoder_answers_cons|]. split; [by constructor|].
        split; [by rewrite app_nil_r|]. cbn [loop_calls frame_calls].
        by rewrite <- !app_assoc.
      * intros (converted & answers & HF & Hlen & Henc & Hmux & -> & ->).
        inversion HF as [|? fc' ? cs Hfc HF']; subst.
        rewrite Hre in Hfc; injection Hfc as <-.
        destruct answers as [|pk ps]; [done|].
        apply encoder_answers_cons in Henc as [Henc0 Henc].
        rewrite Hen in Henc0; injection Henc0 as <-.
        exists cs, ps. split; [done|]. split; [by injection Hlen|].
        split; [done|]. split; [by inversion Hmux|].
        split; [by rewrite app_nil_r|]. cbn [loop_calls frame_calls].
        by rewrite <- !app_assoc.
    + exec. tidy. destruct (av_mux lib (p :: packet)) as [exc|[]] eqn:Hmx.
      { split; [done|]. intros (converted & answers & HF & Hlen & Henc & Hmux & _).
        inversion HF as [|? fc' ? cs Hfc ?]; subst.
        rewrite Hre in Hfc; injection Hfc as <-.
        destruct answers as [|pk ps]; [done|].
        apply encoder_answers_cons in Henc as [Henc _].
        rewrite Hen in Henc; injection Henc as <-.
        inversion Hmux as [|? ? Hpk ?]; subst. specialize (Hpk ltac:(done)). congruence. }
      tidy. etrans; [apply IH|]. cbn [session_state calls]. split.
      * intros (cs & ps & HF & Hlen & Henc & Hmux & -> & ->).
        exists (fc :: cs), ((p :: packet) :: ps).
        split; [by constructor|]. split; [by cbn; rewrite Hlen|].
        split; [by apply encoder_answers_cons|]. split; [by constructor|].
        split; [by cbn [concat]; rewrite <- app_assoc|]. cbn [loop_calls frame_calls].
        by rewrite <- !app_assoc.
      * intros (converted & answers & HF & Hlen & Henc & Hmux & -> & ->).
        inversion HF as [|? fc' ? cs Hfc HF']; subst.
        rewrite Hre in Hfc; injection Hfc as <-.
        destruct answers as [|pk ps]; [done|].
        apply encoder_answers_cons in Henc as [Henc0 Henc].
        rewrite Hen in Henc0; injection Henc0 as <-.
        exists cs, ps. split; [done|]. split; [by injection Hlen|].
        split; [done|]. split; [by inversion Hmux|].
        split; [by cbn [concat]; rewrite <- app_assoc|]. cbn [loop_calls frame_calls].
        by rewrite <- !app_assoc.
Qed.

(** X5. The loop of lines 130-134 hands the frames to [reformat] in
    buffer order, each at most once, and stops at the first failure: the
    frames reformatted are a prefix of the buffer.  It never muxes an
    empty packet list, and it ends with a value or an exception, never
    with a rerun.  It completes exactly when every frame can be
    reformatted, the encoder answers each reformatted frame (having seen
    the reformatted frames before it, in order), and every answer that
    holds packets can be muxed.  Then its calls are, frame by frame,
    [reformat] on the frame, [encode] on the reformatted frame, and
    [mux] on the encoder's answer when that holds packets; and the
    container holds the encoder's answers, in order, after what it held
    before. *)
Theorem encode_loop_feeds_frames_in_order (lib : AvLib) (frames : list VideoFrame) :
  ∀ (fed : list VideoFrame) (muxed : list Packet) (w : World),
  (∃ r l,
    encode_frames lib fed muxed frames w =
      (r, {| session_state := session_state w; calls := calls w ++ l |}) ∧
    reformat_args l `prefix_of` frames ∧
    Forall (λ packets, packets ≠ []) (mux_args l) ∧
    match r with
    | Ret muxed' =>
        reformat_args l = frames ∧
        Forall2 (λ frame converted, av_reformat lib frame = inr converted)
                frames (encode_args l) ∧
        muxed' = muxed ++ concat (mux_args l)
    | Sig s => ∃ e, s = Raise e
    end) ∧
  (∀ (muxed' : list Packet) (w' : World),
    encode_frames lib fed muxed frames w = (Ret muxed', w') ↔
    ∃ converted answers,
      Forall2 (λ frame fc, av_reformat lib frame = inr fc) frames converted ∧
      length answers = length frames ∧
      encoder_answers lib fed converted answers ∧
      Forall (λ packets, packets ≠ [] → av_mux lib packets = inr ()) answers ∧
      muxed' = muxed ++ concat answers ∧
      w' = {| session_state := session_state w;
              calls := calls w ++ loop_calls frames converted answers |}).
Proof.
  intros fed muxed w. split.
  - destruct (encode_frames_trace lib frames fed muxed w)
      as (r & l & Hrun & _ & Hpre & Hmux & Hr).
    by exists r, l.
  - intros muxed' w'. apply encode_frames_completes.
Qed.

(** ** What a run of the script never does *)

Lemma calls_since_emit (before : list Effect) (e : Effect) :
  is_widget e = true → keeps (calls_since before widgets_only) (emit e).
Proof.
  intros He w (l & Hl & Hw). exists (l ++ [e]). cbn. rewrite Hl, app_assoc.
  split; [done|]. unfold widgets_only in *. rewrite forallb_app, Hw. cbn. by rewrite He.
Qed.

Lemma calls_since_button (before : list Effect) (env : Env) (b : Button) (label : string) :
  keeps (calls_since before widgets_only) (st_button env b label).
Proof.
  apply keeps_bind; [by apply calls_since_emit|]. intros _. apply keeps_ret.
Qed.

(** In the module as it is, the stop handler calls nothing. *)
Lemma stop_and_upload_calls_nothing (env : Env) (cfg : Config) (w : World) :
  calls (stop_and_upload module_globals env cfg w).2 = calls w.
Proof.
  rewrite stop_and_upload_run. cbv zeta.
  destruct (frames_nonempty (session_state w)); [|done]. by rewrite flush_NameError.
Qed.

(** X6. No run of the script as it is written calls PyAV, boto3 or S3:
    whatever the session, the secrets, the click and the libraries, the
    calls a run makes are Streamlit widgets and messages only.  (The one
    path to the encoder and the uploader goes through line 124.) *)
Theorem script_calls_widgets_only (env : Env) (w : World) :
  ∃ l, calls (App env w).2 = calls w ++ l ∧ forallb is_widget l = true.
Proof.
  assert (calls_since (calls w) widgets_only w) as Hw.
  { exists []. by rewrite app_nil_r. }
  revert Hw. generalize w at 2 3. generalize (calls w) as before. intros before.
  change (keeps (calls_since before widgets_only) (App env)).
  unfold App, run_script.
  apply keeps_bind.
  { intros w0 Hw0. rewrite load_secrets_run.
    destruct (secrets env !! "AWS_ACCESS_KEY_ID"); [|by apply (calls_since_emit before)].
    destruct (secrets env !! "AWS_SECRET_ACCESS_KEY"); [|by apply (calls_since_emit before)].
    destruct (secrets env !! "S3_BUCKET"); [done|by apply (calls_since_emit before)]. }
  intros cfg.
  apply keeps_bind; [by apply calls_since_emit|]. intros _.
  apply keeps_bind; [by apply calls_since_emit|]. intros _.
  apply keeps_bind; [intros w0 Hw0; by rewrite init_session_state_run|]. intros _.
  apply keeps_bind; [by apply calls_since_emit|]. intros _.
  apply keeps_bind; [by apply calls_since_emit|]. intros _.
  apply keeps_bind.
  { unfold status_metric. apply keeps_bind; [apply keeps_get_attr|]. intros st.
    destruct (eq_str st "Recording").
    - apply keeps_bind; [apply keeps_get_attr|]. intros t.
      destruct (as_number t); [by apply calls_since_emit|apply keeps_raise].
    - apply keeps_bind; [apply keeps_get_attr|]. intros v. by apply calls_since_emit. }
  intros _.
  apply keeps_bind.
  { unfold controls. apply keeps_bind.
    { destruct (playing env); [|apply keeps_ret].
      apply keeps_bind; [apply keeps_get_attr|]. intros r. apply keeps_ret. }
    intros can_start. destruct can_start.
    - apply keeps_bind; [apply calls_since_button|]. intros b.
      destruct b; [|apply keeps_ret]. by intros w0 Hw0.
    - apply keeps_bind; [apply keeps_get_attr|]. intros r.
      destruct (truthy r); [|apply keeps_ret].
      apply keeps_bind; [apply calls_since_button|]. intros b.
      destruct b; [|apply keeps_ret].
      intros w0 Hw0. unfold calls_since. by rewrite stop_and_upload_calls_nothing. }
  intros _.
  apply keeps_bind.
  { intros w0 Hw0. rewrite new_recording_run.
    case_bool_decide; by apply (calls_since_emit before (UiButton _) eq_refl w0). }
  intros _.
  apply keeps_bind; [by apply calls_since_emit|]. intros _.
  by apply calls_since_emit.
Qed.

(** ** Invariants of every session *)

(** A property of the session that the four blocks which write to it
    keep is kept by a run of the script as it is. *)
Lemma run_script_keeps (P : gmap string Value → Prop) (env : Env) :
  (∀ s, P s → P (initialised s)) →
  (∀ t s, P s → P (started t s)) →
  (∀ s, P s → P (stopped s)) →
  (∀ s, P s → P (forgotten s)) →
  keeps (on_session P) (App env).
Proof.
  intros Hinit Hstart Hstop Hforget. unfold App, run_script.
  apply keeps_bind; [by apply load_secrets_keeps|]. intros cfg.
  apply keeps_bind; [apply keeps_emit|]. intros _.
  apply keeps_bind; [apply keeps_emit|]. intros _.
  apply keeps_bind.
  { intros w Hw. rewrite init_session_state_run. by apply Hinit. }
  intros _.
  apply keeps_bind; [apply keeps_emit|]. intros _.
  apply keeps_bind; [apply keeps_emit|]. intros _.
  apply keeps_bind; [apply status_metric_keeps|]. intros _.
  apply keeps_bind.
  { unfold controls. apply keeps_bind.
    { destruct (playing env); [|apply keeps_ret].
      apply keeps_bind; [apply keeps_get_attr|]. intros r. apply keeps_ret. }
    intros can_start. destruct can_start.
    - apply keeps_bind; [apply st_button_keeps|]. intros b.
      destruct b; [|apply keeps_ret].
      apply start_recording_keeps. intros w Hw. by apply Hstart.
    - apply keeps_bind; [apply keeps_get_attr|]. intros r.
      destruct (truthy r); [|apply keeps_ret].
      apply keeps_bind; [apply st_button_keeps|]. intros b.
      destruct b; [|apply keeps_ret].
      intros w Hw. unfold on_session. rewrite stop_and_upload_run. cbv zeta.
      destruct (frames_nonempty (session_state w)); [rewrite flush_NameError|];
        by apply Hstop. }
  intros _.
  apply keeps_bind.
  { intros w Hw. rewrite new_recording_run. case_bool_decide; [by apply Hforget|done]. }
  intros _.
  apply keeps_bind; [apply keeps_emit|]. intros _. apply keeps_emit.
Qed.

Lemma video_frame_callback_keeps (P : gmap string Value → Prop) (frame : VideoFrame) :
  (∀ s fs, P s → P (<["frames" := VFrames fs]> s)) →
  keeps (on_session P) (video_frame_callback frame).
Proof.
  intros HP w Hw. unfold on_session. rewrite video_frame_callback_run.
  destruct (session_state w !! "recording") as [r|]; [|done].
  destruct (truthy r); [|done].
  destruct (session_state w !! "frames") as [[]|]; try done; by apply HP.
Qed.

Lemma replay_keeps (P : gmap string Value → Prop) :
  P ∅ →
  (∀ s, P s → P (initialised s)) →
  (∀ t s, P s → P (started t s)) →
  (∀ s, P s → P (stopped s)) →
  (∀ s, P s → P (forgotten s)) →
  (∀ s fs, P s → P (<["frames" := VFrames fs]> s)) →
  ∀ events, P (replay events).
Proof.
  intros H0 Hinit Hstart Hstop Hforget Hframes events.
  unfold replay. induction events as [|ev events IH] using rev_ind; [done|].
  rewrite foldl_snoc. destruct ev as [env|frame]; cbn [after].
  - by apply (run_script_keeps P env Hinit Hstart Hstop Hforget (fresh _)).
  - by apply (video_frame_callback_keeps P frame Hframes (fresh _)).
Qed.

Lemma value_shape_defaults : map_Forall value_shape init_defaults.
Proof.
  unfold init_defaults.
  repeat (apply map_Forall_insert_2; [by vm_compute; eauto|]).
  apply map_Forall_empty.
Qed.

(** X7. Every session the script as it is written can produce, by any
    sequence of runs and frame deliveries, has the same shape: it holds
    no key but the five of the recorder; the recording flag is a
    boolean; the status is Ready, Recording or Processing... and never
    the uploaded note; the start time is None or a clock reading; the
    stored video is None (no video is ever stored); the frames are a
    list. *)
Theorem sessions_are_well_shaped (events : list Event) : well_shaped (replay events).
Proof.
  apply replay_keeps; unfold well_shaped.
  - apply map_Forall_empty.
  - intros s Hs. rewrite initialised_union.
    apply map_Forall_union_2; [done|]. apply value_shape_defaults.
  - intros t s Hs. unfold started.
    repeat (apply map_Forall_insert_2; [by vm_compute; eauto|]). done.
  - intros s Hs. unfold stopped.
    repeat (apply map_Forall_insert_2; [by vm_compute; eauto|]). done.
  - intros s Hs. unfold forgotten. by repeat apply map_Forall_delete.
  - intros s fs Hs. apply map_Forall_insert_2; [by vm_compute; eauto|]. done.
Qed.

(** ** From a click to the end of the run *)

(** With a Start click, the transport playing and the flag off, lines
    109-116 draw the Start button and start the recording. *)
Lemma controls_start_click (globals : list string) (env : Env) (cfg : Config) (w : World) :
  clicked env = Some BtnStart → playing env = true →
  is_Some (session_state w !! "recording") → is_recording (session_state w) = false →
  controls globals env cfg w =
  (Sig Rerun, {| session_state := started (time_start env) (session_state w);
                 calls := calls w ++ [UiButton "🔴 **Start Recording**"] |}).
Proof.
  intros Hc Hp [r Hr]. unfold is_recording, controls, st_button, start_recording, started.
  exec. rewrite Hc, Hp, Hr. intros Ht. rewrite Ht. cbn [negb session_state calls].
  by change (bool_decide (Some BtnStart = Some BtnStart)) with true.
Qed.

Lemma initialised_recording (s : gmap string Value) :
  is_Some (initialised s !! "recording").
Proof. rewrite initialised_lookup. by repeat case_decide. Qed.

Lemma frame_buffer_initialised (s : gmap string Value) :
  frame_buffer (initialised s) = frame_buffer s.
Proof. unfold frame_buffer. by rewrite initialised_lookup. Qed.

Lemma frames_nonempty_initialised (s : gmap string Value) :
  frames_nonempty (initialised s) = frames_nonempty s.
Proof. unfold frames_nonempty. by rewrite initialised_lookup. Qed.

(** A Start click in a configured run, with the transport playing and
    the recorder not recording. *)
Lemma start_click_run (globals : list string) (env : Env) (w : World) :
  configured env = true → clicked env = Some BtnStart → playing env = true →
  consistent (session_state w) → is_recording (session_state w) = false →
  (run_script globals env w).1 = Sig Rerun ∧
  session_state (run_script globals env w).2 =
    started (time_start env) (initialised (session_state w)).
Proof.
  intros Hcfg Hc Hp Hs Hrec. unfold run_script. rewrite bind_run, load_secrets_run.
  revert Hcfg. unfold configured.
  destruct (secrets env !! "AWS_ACCESS_KEY_ID") as [a|]; [|done].
  destruct (secrets env !! "AWS_SECRET_ACCESS_KEY") as [k|]; [|done].
  destruct (secrets env !! "S3_BUCKET") as [b|]; [|done]. intros _.
  do 2 (rewrite bind_run; cbn [emit]).
  rewrite bind_run, init_session_state_run. cbn [session_state calls].
  do 2 (rewrite bind_run; cbn [emit session_state calls]).
  rewrite bind_run.
  match goal with |- context [status_metric env ?x] => set (w0 := x) end.
  pose proof (silent_status_metric env (session_state w) Hs w0 eq_refl) as Hm.
  destruct (status_metric env w0) as [r w1].
  cbv beta in Hm. cbn [fst snd] in Hm. destruct Hm as ([] & -> & Hses).
  rewrite bind_run, controls_start_click; try done.
  - cbn [fst snd session_state]. by rewrite Hses.
  - rewrite Hses. apply initialised_recording.
  - by rewrite Hses, is_recording_initialised.
Qed.

(** X8. In the script as it is written, a Stop click in a recording
    session ends with the rerun request exactly when the frame buffer is
    empty; with one frame or more it ends with NameError (line 124).
    Either way the session ends as lines 119-120 leave it, flag off and
    status Processing..., with the frame buffer unchanged. *)
Theorem stop_click_reruns_iff_buffer_empty (events : list Event) (env : Env) :
  configured env = true → clicked env = Some BtnStop →
  is_recording (replay events) = true →
  let s := replay events in
  let r := App env (fresh s) in
  r.1 = match frame_buffer s with
        | [] => Sig Rerun
        | _ => Sig (Raise (NameError "io"))
        end ∧
  session_state r.2 = stopped (initialised s) ∧
  frame_buffer (session_state r.2) = frame_buffer s.
Proof.
  intros Hcfg Hc Hrec s r.
  pose proof (replay_consistent events) as Hs. fold s in Hs, Hrec.
  destruct (stop_click_runs_handler module_globals env (fresh s) Hcfg Hc Hs Hrec)
    as (cfg & w1 & _ & Hw1 & Hrun).
  subst r. unfold App. rewrite Hrun, stop_and_upload_run. cbv zeta.
  cbn [fresh session_state] in Hw1. rewrite Hw1, frames_nonempty_initialised.
  assert (frames_nonempty s = match frame_buffer s with [] => false | _ => true end) as Hne.
  { destruct Hs as (_ & [Hf|[fs Hf]] & _); unfold frames_nonempty, frame_buffer; by rewrite Hf. }
  assert (frame_buffer (stopped (initialised s)) = frame_buffer s) as Hfb.
  { unfold frame_buffer, stopped. rewrite !lookup_insert_ne by done.
    by rewrite initialised_lookup. }
  rewrite Hne. destruct (frame_buffer s); [done|]. by rewrite flush_NameError.
Qed.

Lemma stop_click_reruns_iff_buffer_empty_witness :
  let r := App (click BtnStop) (fresh recording_two_frames) in
  is_recording recording_two_frames = true ∧
  r.1 = match frame_buffer recording_two_frames with
        | [] => Sig Rerun
        | _ => Sig (Raise (NameError "io"))
        end ∧
  session_state r.2 = stopped (initialised recording_two_frames) ∧
  frame_buffer (session_state r.2) = frame_buffer recording_two_frames.
Proof.
  split; [by vm_compute|].
  apply (stop_click_reruns_iff_buffer_empty
           [ScriptRun sample_env; ScriptRun (click BtnStart); ScriptRun sample_env;
            FrameArrives (sample_frame 0); FrameArrives (sample_frame 1)]
           (click BtnStop)); by vm_compute.
Defined.

(** X9. A Start click in a configured run, with the transport playing
    and the recorder not recording, ends with the rerun request and
    starts from an empty buffer: frames left in the session by an
    earlier recording are dropped, and after any number of deliveries
    the buffer holds exactly the frames delivered since the click, in
    arrival order. *)
Theorem start_click_begins_with_empty_buffer
    (events : list Event) (env : Env) (frames : list VideoFrame) :
  configured env = true → clicked env = Some BtnStart → playing env = true →
  is_recording (replay events) = false →
  let r := App env (fresh (replay events)) in
  r.1 = Sig Rerun ∧
  session_state r.2 = started (time_start env) (initialised (replay events)) ∧
  frame_buffer (session_state (deliver frames r.2)) = frames.
Proof.
  intros Hcfg Hc Hp Hrec r.
  destruct (start_click_run module_globals env (fresh (replay events)) Hcfg Hc Hp
              (replay_consistent events) Hrec) as [Hr Hs].
  fold (App env) in Hr, Hs. fold r in Hr, Hs. cbn [fresh session_state] in Hs.
  split; [done|]. split; [done|].
  destruct (deliver_run frames r.2) as (_ & _ & Hb).
  { rewrite Hs. apply frames_typed_frames. }
  rewrite Hb, Hs. unfold started at 1 2.
  rewrite is_recording_insert, frame_buffer_insert. case_decide; [done|].
  rewrite is_recording_insert. case_decide; [done|].
  rewrite is_recording_insert. case_decide; [done|].
  rewrite is_recording_insert. case_decide; [done|done].
Qed.

Lemma start_click_begins_with_empty_buffer_witness :
  let stale := session_state (App (click BtnStop) (fresh recording_two_frames)).2 in
  let r := App (click BtnStart) (fresh stale) in
  frame_buffer stale = [sample_frame 0; sample_frame 1] ∧
  r.1 = Sig Rerun ∧
  frame_buffer (session_state (deliver [sample_frame 7] r.2)) = [sample_frame 7].
Proof.
  split; [by vm_compute|].
  pose proof (start_click_begins_with_empty_buffer
           [ScriptRun sample_env; ScriptRun (click BtnStart); ScriptRun sample_env;
            FrameArrives (sample_frame 0); FrameArrives (sample_frame 1);
            ScriptRun (click BtnStop)]
           (click BtnStart) [sample_frame 7] eq_refl eq_refl eq_refl) as H.
  destruct H as (H1 & _ & H3); [by vm_compute|]. split; [exact H1|exact H3].
Defined.

(** X10. A configured run that no click caused completes, whatever
    session the script and the transport have produced before; it only
    fills in the keys that are missing, so a second such run changes
    nothing. *)
Theorem plain_run_only_initialises (events : list Event) (env env' : Env) :
  configured env = true → clicked env = None →
  configured env' = true → clicked env' = None →
  let s := replay events in
  let r := App env (fresh s) in
  let r' := App env' (fresh (session_state r.2)) in
  r.1 = Ret () ∧ session_state r.2 = s ∪ init_defaults ∧
  r'.1 = Ret () ∧ session_state r'.2 = session_state r.2.
Proof.
  intros Hcfg Hc Hcfg' Hc' s r r'.
  pose proof (replay_consistent events) as Hs. fold s in Hs.
  destruct (no_click_run module_globals env (fresh s) Hcfg Hc Hs) as [Hr Hrs].
  fold (App env) in Hr, Hrs. fold r in Hr, Hrs. cbn [fresh session_state] in Hrs.
  destruct (no_click_run module_globals env' (fresh (session_state r.2)) Hcfg' Hc')
    as [Hr' Hrs'].
  { cbn [fresh session_state]. rewrite Hrs. by apply initialised_consistent. }
  fold (App env') in Hr', Hrs'. fold r' in Hr', Hrs'. cbn [fresh session_state] in Hrs'.
  split; [done|]. split; [by rewrite Hrs, initialised_union|]. split; [done|].
  rewrite Hrs', Hrs, !initialised_union. apply map_eq. intros j. rewrite !lookup_union.
  by destruct (s !! j), (init_defaults !! j).
Qed.

Lemma plain_run_only_initialises_witness :
  let s := recording_two_frames in
  let r := App sample_env (fresh s) in
  let r' := App sample_env (fresh (session_state r.2)) in
  configured sample_env = true ∧
  r.1 = Ret () ∧ session_state r.2 = s ∪ init_defaults ∧
  r'.1 = Ret () ∧ session_state r'.2 = session_state r.2.
Proof.
  split; [reflexivity|].
  apply (plain_run_only_initialises
           [ScriptRun sample_env; ScriptRun (click BtnStart); ScriptRun sample_env;
            FrameArrives (sample_frame 0); FrameArrives (sample_frame 1)]
           sample_env sample_env); reflexivity.
Defined.

(** ** Keys of different seconds *)

Lemma pad2_unpad2 (n : Z) : 0 ≤ n ≤ 99 → unpad2 (pad2 n) = Some n.
Proof.
  intros Hn.
  assert (forallb (λ k, bool_decide (unpad2 (pad2 k) = Some k)) (seqZ 0 100) = true) as H
    by (by vm_compute).
  rewrite forallb_forall in H. eapply bool_decide_eq_true_1, H.
  apply list_elem_of_In, elem_of_seqZ. lia.
Qed.

Lemma two_digits_length (s : string) : two_digits s = true → String.length s = 2%nat.
Proof. by destruct s as [|a [|b [|]]]. Qed.

Lemma four_digits_length (s : string) : four_digits s = true → String.length s = 4%nat.
Proof. by destruct s as [|a [|b [|c [|d [|]]]]]. Qed.

(** Two concatenations with first parts of the same length are equal
    only part by part. *)
Lemma append_inj_length (a b c d : string) :
  String.length a = String.length c → a +:+ b = c +:+ d → a = c ∧ b = d.
Proof.
  revert c. induction a as [|x a IH]; intros [|y c] Hlen; try done.
  cbn [String.append]. intros [= -> H]. injection Hlen as Hlen.
  by destruct (IH c Hlen H) as [-> ->].
Qed.

Lemma append_assoc (a b c : string) : (a +:+ b) +:+ c = a +:+ (b +:+ c).
Proof.
  induction a as [|x a IH]; [done|].
  change (String x ((a +:+ b) +:+ c) = String x (a +:+ (b +:+ c))). by rewrite IH.
Qed.

Lemma pad2_inj (n n' : Z) : 0 ≤ n ≤ 99 → 0 ≤ n' ≤ 99 → pad2 n = pad2 n' → n = n'.
Proof.
  intros Hn Hn' H. apply (f_equal unpad2) in H.
  rewrite !pad2_unpad2 in H by done. by injection H.
Qed.

(** The timestamp of a key tells the second it was made in. *)
Lemma strftime_inj (tm tm' : struct_time) (rest rest' : string) :
  valid_time tm → valid_time tm' →
  strftime tm +:+ rest = strftime tm' +:+ rest' → tm = tm' ∧ rest = rest'.
Proof.
  intros (Hy & Hm & Hd & Hh & Hmi & Hs) (Hy' & Hm' & Hd' & Hh' & Hmi' & Hs').
  unfold strftime. rewrite !append_assoc. intros H.
  apply append_inj_length in H as [Hyear H].
  2:{ by rewrite !four_digits_length by by apply year_four_digits. }
  apply append_inj_length in H as [Hmon H].
  2:{ by rewrite !two_digits_length by (apply pad2_two_digits; lia). }
  apply append_inj_length in H as [Hday H].
  2:{ by rewrite !two_digits_length by (apply pad2_two_digits; lia). }
  apply append_inj_length in H as [_ H]; [|done].
  apply append_inj_length in H as [Hhour H].
  2:{ by rewrite !two_digits_length by (apply pad2_two_digits; lia). }
  apply append_inj_length in H as [Hmin H].
  2:{ by rewrite !two_digits_length by (apply pad2_two_digits; lia). }
  apply append_inj_length in H as [Hsec H].
  2:{ by rewrite !two_digits_length by (apply pad2_two_digits; lia). }
  split; [|done].
  apply (inj pretty) in Hyear. apply pad2_inj in Hmon, Hday, Hhour, Hmin, Hsec; try lia.
  destruct tm, tm'; cbn in *. by subst.
Qed.

(** X11. For clock readings in years of four digits, the key determines
    the second it was made in and the leading 32 bits of its UUID, and
    nothing else: two uploads get the same key exactly when they happen
    in the same second and their UUIDs share these bits.  Uploads of
    different seconds never collide. *)
Theorem object_keys_differ_across_seconds (tm tm' : struct_time) (u u' : Z) :
  valid_time tm → valid_time tm' →
  file_key tm u = file_key tm' u' ↔ tm = tm' ∧ time_low u = time_low u'.
Proof.
  intros Htm Htm'. split.
  - intros H. assert (tm = tm') as <-.
    { unfold file_key in H. apply append_inj_l in H.
      by apply strftime_inj in H as [? _]. }
    split; [done|]. by apply (file_key_inj tm).
  - intros [<- H]. by apply file_key_inj.
Qed.

Lemma object_keys_differ_across_seconds_witness :
  let later := {| tm_year := 2024; tm_mon := 3; tm_mday := 9;
                  tm_hour := 14; tm_min := 5; tm_sec := 1 |} in
  valid_time sample_time ∧ valid_time later ∧
  (file_key sample_time 5 = file_key later 5 ↔ sample_time = later ∧ time_low 5 = time_low 5).
Proof.
  assert (valid_time sample_time) as H1 by (unfold valid_time, sample_time; cbn; lia).
  assert (valid_time {| tm_year := 2024; tm_mon := 3; tm_mday := 9;
                        tm_hour := 14; tm_min := 5; tm_sec := 1 |}) as H2
    by (unfold valid_time; cbn; lia).
  split; [exact H1|]. split; [exact H2|].
  exact (object_keys_differ_across_seconds sample_time _ 5 5 H1 H2).
Defined.

(** ** The status display *)

(** X12. In every session the script and the transport can produce, once
    initialised, the status display of lines 102-107 never fails and
    changes nothing: while recording it shows the timer, computed from
    the stored start time, and otherwise the status text as it is. *)
Theorem status_display_never_fails (events : list Event) (env : Env) :
  let s := initialised (replay events) in
  ∃ label value,
    status_metric env (fresh s) =
      (Ret (), {| session_state := s; calls := [UiMetric label value] |}) ∧
    if is_recording s
    then label = "⏱️" ∧
         ∃ t, s !! "start_time" = Some (VNum t) ∧
              value = VStr (format_elapsed (time_metric env - t))
    else label = "Status" ∧ s !! "status" = Some value.
Proof.
  intros s.
  pose proof (initialised_consistent _ (replay_consistent events)) as (Hr & _ & Ht).
  fold s in Hr, Ht. revert Hr Ht. unfold is_recording, status_is, status_metric. exec.
  destruct (s !! "status") as [st|] eqn:Hst.
  2:{ unfold s in Hst. rewrite initialised_lookup in Hst. by repeat case_decide. }
  destruct (eq_str st "Recording"); intros Hr Ht.
  - rewrite Hr. destruct (Ht Hr) as [t Hstart]. cbn [session_state calls].
    rewrite !Hstart. cbn [as_number session_state calls app].
    eexists _, _. split; [done|]. split; [done|]. eauto.
  - rewrite Hr. cbn [session_state calls]. rewrite Hst. cbn [session_state calls app].
    eexists _, _. split; [done|]. done.
Qed.

(** ** The callback at the edges *)

(** X13. The frame callback is a pass-through: whenever it returns, it
    returns the very frame it was given.  It fails in two cases only,
    with AttributeError and without touching the session: when the
    session has no [recording] key yet (a frame that arrives before the
    first run of the script), and when it is recording and [frames]
    holds something that is no list.  It never calls anything. *)
Theorem callback_passes_the_frame_through (frame : VideoFrame) (w : World) :
  let r := video_frame_callback frame w in
  calls r.2 = calls w ∧
  match r.1 with
  | Ret returned => returned = frame
  | Sig sg =>
      r.2 = w ∧
      ((sg = Raise (AttributeError "recording") ∧ session_state w !! "recording" = None) ∨
       (sg = Raise (AttributeError "append") ∧ is_recording (session_state w) = true ∧
        ¬ frames_typed (session_state w)))
  end.
Proof.
  intros r. subst r. rewrite video_frame_callback_run. unfold is_recording, frames_typed.
  destruct (session_state w !! "recording") as [v|];
    [|split; [done|]; split; [done|]; by left].
  destruct (truthy v); [|done].
  destruct (session_state w !! "frames") as [[]|]; try done;
    (split; [done|]; split; [done|]; right; split; [done|]; split; [done|];
     intros [?|[? ?]]; congruence).
Qed.

(** ** An unconfigured deployment *)

(** X14. While the secrets are missing nothing ever gets into the
    session: after any sequence of runs, all of them without one of the
    required secrets, and of frame deliveries, the session is still
    empty. *)
Theorem unconfigured_session_stays_empty (events : list Event) :
  (∀ env, ScriptRun env ∈ events → configured env = false) →
  replay events = ∅.
Proof.
  unfold replay. induction events as [|ev events IH] using rev_ind; [done|].
  intros H. rewrite foldl_snoc, IH.
  2:{ intros env Hin. apply H, elem_of_app. by left. }
  destruct ev as [env|frame]; cbn [after]; [|done].
  assert (configured env = false) as Hcfg.
  { apply H, elem_of_app. right. apply elem_of_cons. by left. }
  unfold App, run_script. rewrite bind_run, load_secrets_run.
  revert Hcfg. unfold configured.
  destruct (secrets env !! "AWS_ACCESS_KEY_ID"); [|done].
  destruct (secrets env !! "AWS_SECRET_ACCESS_KEY"); [|done].
  destruct (secrets env !! "S3_BUCKET"); [|done].
  by rewrite !bool_decide_eq_true_2 by eauto.
Qed.

Lemma unconfigured_session_stays_empty_witness :
  let env := with_click (Some BtnStart)
               {| secrets := delete "AWS_SECRET_ACCESS_KEY" sample_secrets;
                  playing := true; clicked := None;
                  time_metric := 0; time_start := 0; localtime := sample_time; uuid4 := 0;
                  boto3_client := inr (); put_object := λ _ _ _, inr (); av := sample_av |} in
  configured env = false ∧
  replay [ScriptRun env; FrameArrives (sample_frame 0); ScriptRun env] = ∅.
Proof.
  split; [reflexivity|].
  apply unconfigured_session_stays_empty.
  intros env Hin. repeat (apply elem_of_cons in Hin as [Hin|Hin]; [by simplify_eq|]).
  by apply elem_of_nil in Hin.
Defined.

(** ** The timer *)

(** X15. The timer of line 105 shows the elapsed time in whole minutes
    and seconds: for a recording shorter than a hundred minutes the text
    is two digits, a colon and two digits, and reading it back gives the
    elapsed time in whole seconds. *)
Theorem timer_reads_back_as_whole_seconds (elapsed : Z) :
  0 ≤ elapsed < 6000000000 →
  String.length (format_elapsed elapsed) = 5%nat ∧
  read_timer (format_elapsed elapsed) = Some (elapsed / 1000000).
Proof.
  intros He. unfold format_elapsed.
  set (m := elapsed / 60000000). set (sec := elapsed `mod` 60000000 / 1000000).
  assert (0 ≤ m ≤ 99) as Hm by (unfold m; Z.div_mod_to_equations; lia).
  assert (0 ≤ sec ≤ 59) as Hs by (unfold sec; Z.div_mod_to_equations; lia).
  assert (60 * m + sec = elapsed / 1000000) as Hsum by (unfold m, sec; Z.div_mod_to_equations; lia).
  pose proof (pad2_unpad2 m Hm) as Hum. pose proof (pad2_unpad2 sec ltac:(lia)) as Hus.
  pose proof (pad2_two_digits m Hm) as Hdm.
  pose proof (pad2_two_digits sec ltac:(lia)) as Hds.
  destruct (pad2 m) as [|a [|b [|]]]; try discriminate Hdm.
  destruct (pad2 sec) as [|c [|d [|]]]; try discriminate Hds.
  split; [done|].
  change (String a (String b "") +:+ ":" +:+ String c (String d ""))
    with (String a (String b (String ":" (String c (String d ""))))).
  cbn [read_timer]. change (Ascii.eqb ":" ":") with true. cbv iota.
  rewrite Hum, Hus. cbn. by rewrite Hsum.
Qed.

Lemma timer_reads_back_as_whole_seconds_witness :
  format_elapsed 125400000 = "02:05" ∧
  String.length (format_elapsed 125400000) = 5%nat ∧
  read_timer (format_elapsed 125400000) = Some (125400000 / 1000000).
Proof.
  split; [by vm_compute|].
  apply (timer_reads_back_as_whole_seconds 125400000). lia.
Defined.
